(** * Soma AI tutor: request dispatcher and progress tracker

    A shallow embedding of [src/soma_ai_tutor/core.py] and the properties
    of its dispatcher ([generate], [check_access]), its text extraction,
    its error classification and its topic progress store.

    Conventions of the embedding.
    - A Python [str] is a [string] whose characters are read as the code
      points U+0000..U+00FF; [str.lower], [str.split], [str.strip] and
      [int] are written out for that range. Module [Unicode] has the same
      functions on any sequence of code points, with the context rule of
      [str.lower] for capital sigma; the two agree on that range
      ([UnicodeFacts.normalize_topic_of_string]).
    - A Python value that may be [None] or a [str] is a [pyval].
    - The progress file is kept as the outcome of
      [json.loads(PROGRESS_FILE.read_text())]: either the call raises or
      it yields a JSON value.
    - A Python [dict] is an association list in insertion order with
      unique keys ([Dict.set] updates in place or appends).
    - Code that reads or writes files runs in a small state-and-exception
      monad over a [World]. *)

From Stdlib Require Import Bool Arith NArith ZArith List Lia.
From Stdlib Require Import Ascii String.
From Stdlib Require Import Relations.Relation_Operators.
From Stdlib Require Import Floats.SpecFloat.
From Stdlib Require Import DecimalString DecimalNat.
Import ListNotations.

Local Set Warnings "-register-all".

Local Open Scope list_scope.
Local Open Scope string_scope.

(** ** Strings as Python sees them *)

Module PyStr.

(** [str.isspace] on one code point below 256: TAB..CR, FS..US, SPACE,
    NEL and NBSP. *)
Definition is_space (c : ascii) : bool :=
  let n := nat_of_ascii c in
  (((9 <=? n) && (n <=? 13)) || ((28 <=? n) && (n <=? 32))
   || (n =? 133) || (n =? 160))%nat.

(** [str.lower] on one code point below 256: A-Z and the Latin-1 capitals
    U+00C0..U+00DE (U+00D7, the multiplication sign, apart) move up by 32. *)
Definition lower_char (c : ascii) : ascii :=
  let n := nat_of_ascii c in
  if (((65 <=? n) && (n <=? 90))
      || ((192 <=? n) && (n <=? 222) && negb (n =? 215)))%nat
  then ascii_of_nat (n + 32) else c.

Fixpoint lower (s : string) : string :=
  match s with
  | EmptyString => EmptyString
  | String c s' => String (lower_char c) (lower s')
  end.

Definition is_empty (s : string) : bool :=
  match s with EmptyString => true | String _ _ => false end.

Fixpoint lstrip (s : string) : string :=
  match s with
  | EmptyString => EmptyString
  | String c s' => if is_space c then lstrip s' else s
  end.

Fixpoint rstrip (s : string) : string :=
  match s with
  | EmptyString => EmptyString
  | String c s' =>
      let r := rstrip s' in
      if is_space c && is_empty r then EmptyString else String c r
  end.

(** [s.strip()] *)
Definition strip (s : string) : string := rstrip (lstrip s).

Definition emit (cur : string) (rest : list string) : list string :=
  if is_empty cur then rest else cur :: rest.

(** The scan of [s.split()]: [cur] is the word being read. *)
Fixpoint split_from (cur s : string) : list string :=
  match s with
  | EmptyString => emit cur []
  | String c s' =>
      if is_space c then emit cur (split_from EmptyString s')
      else split_from (cur ++ String c EmptyString) s'
  end.

(** [s.split()] with no argument: the maximal runs of non-whitespace. *)
Definition split (s : string) : list string := split_from EmptyString s.

(** [sep.join(ws)] *)
Definition join (sep : string) (ws : list string) : string :=
  String.concat sep ws.

(** [s.startswith(p)] *)
Definition startswith (p s : string) : bool := String.prefix p s.

(** [sub in s] *)
Fixpoint contains (sub s : string) : bool :=
  String.prefix sub s
  || match s with
     | EmptyString => false
     | String _ s' => contains sub s'
     end.

(** [s[:n]] for [n >= 0] *)
Fixpoint take (n : nat) (s : string) : string :=
  match n, s with
  | S n', String c s' => String c (take n' s')
  | _, _ => EmptyString
  end.

(** [c * n] *)
Fixpoint repeat_char (c : ascii) (n : nat) : string :=
  match n with
  | O => EmptyString
  | S n' => String c (repeat_char c n')
  end.

Fixpoint space_free (s : string) : bool :=
  match s with
  | EmptyString => true
  | String c s' => negb (is_space c) && space_free s'
  end.

(** A word as [split] yields them: non-empty, no whitespace inside. *)
Definition word (w : string) : Prop :=
  is_empty w = false /\ space_free w = true.

End PyStr.

(** ** [normalize_topic] *)

Definition normalize_topic (topic : string) : string :=
  PyStr.lower (PyStr.join " " (PyStr.split (PyStr.strip topic))).

(** ** Strings beyond U+00FF

    The same functions on a [str] given by its code points, with
    [str.lower] as the interpreter computes it: one code point at a time
    through the Unicode tables, capital sigma apart, which is lower-cased by
    its context. The tables hold the entries of the Unicode Character
    Database for U+0000..U+00FF and for the Greek letters U+0391..U+03C9;
    nothing below reads another entry. *)

Module Unicode.

Definition ustr : Type := list N.


Definition in_range (lo hi c : N) : bool := ((lo <=? c) && (c <=? hi))%N.

(** [str.isspace] on one code point: all of them. *)
Definition is_space (c : N) : bool :=
  in_range 0x09 0x0D c || in_range 0x1C 0x20 c
  || (c =? 0x85)%N || (c =? 0xA0)%N || (c =? 0x1680)%N
  || in_range 0x2000 0x200A c
  || (c =? 0x2028)%N || (c =? 0x2029)%N || (c =? 0x202F)%N
  || (c =? 0x205F)%N || (c =? 0x3000)%N.

(** The capitals: A-Z, the Latin-1 capitals (the multiplication sign is
    none) and the Greek capitals (U+03A2 is unassigned). *)
Definition is_capital (c : N) : bool :=
  in_range 0x41 0x5A c
  || (in_range 0xC0 0xDE c && negb (c =? 0xD7)%N)
  || in_range 0x391 0x3A1 c || in_range 0x3A3 0x3A9 c.

(** The small letter of a capital, 32 places on; any other code point is
    its own. *)
Definition simple_lower (c : N) : N :=
  if is_capital c then (c + 32)%N else c.

(** [_PyUnicode_ToLowerFull] *)
Definition to_lower_full (c : N) : ustr := [simple_lower c].

(** [_PyUnicode_IsCased] *)
Definition is_cased (c : N) : bool :=
  in_range 0x41 0x5A c || in_range 0x61 0x7A c
  || (c =? 0xAA)%N || (c =? 0xB5)%N || (c =? 0xBA)%N
  || in_range 0xC0 0xD6 c || in_range 0xD8 0xF6 c || in_range 0xF8 0xFF c
  || in_range 0x391 0x3A1 c || in_range 0x3A3 0x3A9 c
  || in_range 0x3B1 0x3C9 c.

(** [_PyUnicode_IsCaseIgnorable] *)
Definition is_case_ignorable (c : N) : bool :=
  existsb (N.eqb c)
    [0x27; 0x2E; 0x3A; 0x5E; 0x60; 0xA8; 0xAD; 0xAF; 0xB4; 0xB7; 0xB8]%N.

Fixpoint first_not_ignorable (s : ustr) : option N :=
  match s with
  | [] => None
  | c :: s' => if is_case_ignorable c then first_not_ignorable s' else Some c
  end.

(** [handle_capital_sigma]: the sigma is final when a cased letter stands
    before it and none after it, case-ignorable characters skipped;
    [before] is the text before it, nearest character first. *)
Definition final_sigma (before after : ustr) : bool :=
  match first_not_ignorable before with
  | Some c =>
      is_cased c
      && match first_not_ignorable after with
         | Some d => negb (is_cased d)
         | None => true
         end
  | None => false
  end.

Definition capital_sigma : N := 0x3A3.
Definition small_sigma : N := 0x3C3.
Definition small_final_sigma : N := 0x3C2.

(** The loop of [str.lower]. *)
Fixpoint lower_from (before s : ustr) : ustr :=
  match s with
  | [] => []
  | c :: rest =>
      ((if (c =? capital_sigma)%N
        then [if final_sigma before rest then small_final_sigma else small_sigma]
        else to_lower_full c)
       ++ lower_from (c :: before) rest)%list
  end.

Definition lower (s : ustr) : ustr := lower_from [] s.

Definition is_empty (s : ustr) : bool :=
  match s with [] => true | _ :: _ => false end.

Fixpoint lstrip (s : ustr) : ustr :=
  match s with
  | [] => []
  | c :: s' => if is_space c then lstrip s' else s
  end.

Fixpoint rstrip (s : ustr) : ustr :=
  match s with
  | [] => []
  | c :: s' =>
      let r := rstrip s' in
      if is_space c && is_empty r then [] else c :: r
  end.

Definition strip (s : ustr) : ustr := rstrip (lstrip s).

Definition emit (cur : ustr) (rest : list ustr) : list ustr :=
  if is_empty cur then rest else cur :: rest.

Fixpoint split_from (cur s : ustr) : list ustr :=
  match s with
  | [] => emit cur []
  | c :: s' =>
      if is_space c then emit cur (split_from [] s')
      else split_from (cur ++ [c])%list s'
  end.

Definition split (s : ustr) : list ustr := split_from [] s.

Fixpoint join (sep : ustr) (ws : list ustr) : ustr :=
  match ws with
  | [] => []
  | [w] => w
  | w :: ws' => (w ++ sep ++ join sep ws')%list
  end.

(** [normalize_topic] on any [str]. *)
Definition normalize_topic (topic : ustr) : ustr :=
  lower (join [0x20%N] (split (strip topic))).

(** Two code points are one letter in two cases: a capital and its small
    letter, either way round, or the same code point. *)
Definition case_pair (c c' : N) : bool :=
  ((c =? c') || (simple_lower c =? c') || (simple_lower c' =? c))%N.

(** Two strings differ only in letter case and whitespace runs when one is
    reached from the other by these edits, in either direction: recasing a
    character, adding whitespace at either end, and lengthening an existing
    whitespace run. *)
Inductive ws_case_edit : ustr -> ustr -> Prop :=
| edit_case a c c' b :
    case_pair c c' = true ->
    ws_case_edit (a ++ c :: b)%list (a ++ c' :: b)%list
| edit_lead w s :
    is_space w = true -> ws_case_edit s (w :: s)
| edit_trail w s :
    is_space w = true -> ws_case_edit s (s ++ [w])%list
| edit_run_after a w w' b :
    is_space w = true -> is_space w' = true ->
    ws_case_edit (a ++ w :: b)%list (a ++ w :: w' :: b)%list
| edit_run_before a w w' b :
    is_space w = true -> is_space w' = true ->
    ws_case_edit (a ++ w :: b)%list (a ++ w' :: w :: b)%list.

Definition same_modulo_case_ws : ustr -> ustr -> Prop :=
  clos_refl_sym_trans ustr ws_case_edit.


End Unicode.


(** The same relation on the strings of the first 256 code points: the
    edits of [Unicode.ws_case_edit] that stay among them. *)
Inductive ws_case_edit : string -> string -> Prop :=
| edit_case a c c' b :
    Unicode.case_pair (N_of_ascii c) (N_of_ascii c') = true ->
    ws_case_edit (a ++ String c b) (a ++ String c' b)
| edit_lead w s :
    PyStr.is_space w = true -> ws_case_edit s (String w s)
| edit_trail w s :
    PyStr.is_space w = true -> ws_case_edit s (s ++ String w EmptyString)
| edit_run_after a w w' b :
    PyStr.is_space w = true -> PyStr.is_space w' = true ->
    ws_case_edit (a ++ String w b) (a ++ String w (String w' b))
| edit_run_before a w w' b :
    PyStr.is_space w = true -> PyStr.is_space w' = true ->
    ws_case_edit (a ++ String w b) (a ++ String w' (String w b)).

Definition same_modulo_case_ws : string -> string -> Prop :=
  clos_refl_sym_trans string ws_case_edit.

(** ** Python values, exceptions and dictionaries *)

(** A value that is [None] or a [str]. *)
Inductive pyval : Type :=
| PyNone
| PyText (s : string).

(** The exceptions the modelled code can meet. *)
Inductive exn : Type :=
| AttributeError
| TypeError
| IndexError
| KeyError.

Inductive result (A : Type) : Type :=
| Ok (a : A)
| Raise (e : exn).
Arguments Ok {A} a.
Arguments Raise {A} e.

(** A [dict] with [str] keys, in insertion order. *)
Definition dict (V : Type) : Type := list (string * V).

Module Dict.
Section Ops.
Context {V : Type}.

(** [d.get(k)] *)
Fixpoint get (k : string) (d : dict V) : option V :=
  match d with
  | [] => None
  | (k', v) :: d' => if String.eqb k k' then Some v else get k d'
  end.

(** [d.get(k, dflt)] *)
Definition get_default (k : string) (dflt : V) (d : dict V) : V :=
  match get k d with Some v => v | None => dflt end.

(** [d[k] = v]: the entry is replaced where it stands, a new key goes last. *)
Fixpoint set (k : string) (v : V) (d : dict V) : dict V :=
  match d with
  | [] => [(k, v)]
  | (k', v') :: d' =>
      if String.eqb k k' then (k, v) :: d' else (k', v') :: set k v d'
  end.

Definition keys (d : dict V) : list string := map fst d.

Definition mem (k : string) (d : dict V) : bool :=
  match get k d with Some _ => true | None => false end.
End Ops.
End Dict.

(** ** The progress store *)

(** What [json.loads] can return. *)
Inductive json : Type :=
| JNull
| JBool (b : bool)
| JInt (z : Z)
| JFloat (f : spec_float)
| JStr (s : string)
| JArr (elems : list json)
| JObj (items : list (string * json)).

(** The outcome of [json.loads(PROGRESS_FILE.read_text(encoding="utf-8"))]:
    the file cannot be read or is not JSON, or it parses to a value. *)
Inductive payload : Type :=
| Unreadable
| Parsed (v : json).

Module PyInt.

Definition digit_of (c : ascii) : option Z :=
  let n := nat_of_ascii c in
  if ((48 <=? n) && (n <=? 57))%nat then Some (Z.of_nat (n - 48)) else None.

(** Decimal digits, single underscores allowed between two digits. *)
Fixpoint digits (acc : Z) (after_digit : bool) (s : string) : option Z :=
  match s with
  | EmptyString => if after_digit then Some acc else None
  | String c s' =>
      match digit_of c with
      | Some d => digits (10 * acc + d) true s'
      | None =>
          if Ascii.eqb c "_" && after_digit then digits acc false s' else None
      end
  end.

(** The whitespace [int] skips around the digits: TAB..CR and SPACE, and
    the whitespace beyond ASCII, which it first turns into spaces (NEL and
    NBSP below 256). FS..US are not skipped. *)
Definition is_int_space (c : ascii) : bool :=
  let n := nat_of_ascii c in
  (((9 <=? n) && (n <=? 13)) || (n =? 32) || (n =? 133) || (n =? 160))%nat.

Fixpoint skip_leading (s : string) : string :=
  match s with
  | EmptyString => EmptyString
  | String c s' => if is_int_space c then skip_leading s' else s
  end.

Fixpoint skip_trailing (s : string) : string :=
  match s with
  | EmptyString => EmptyString
  | String c s' =>
      let r := skip_trailing s' in
      if is_int_space c && PyStr.is_empty r then EmptyString else String c r
  end.

Fixpoint count_digits (s : string) : nat :=
  match s with
  | EmptyString => 0
  | String c s' =>
      match digit_of c with
      | Some _ => S (count_digits s')
      | None => count_digits s'
      end
  end.

(** [sys.int_info.default_max_str_digits] *)
Definition max_str_digits : nat := 4300.

(** [int(s)] for a [str]: surrounding whitespace, an optional sign, digits,
    at most [max_str_digits] of them. [None] stands for [ValueError]. *)
Definition of_str (s : string) : option Z :=
  let parse r :=
    if (max_str_digits <? count_digits r)%nat then None
    else digits 0 false r in
  match skip_trailing (skip_leading s) with
  | String "+" r => parse r
  | String "-" r => option_map Z.opp (parse r)
  | t => parse t
  end.

(** [int(x)] for a [float]: truncation toward zero; [None] stands for the
    [ValueError] on NaN and the [OverflowError] on an infinity. *)
Definition of_float (f : spec_float) : option Z :=
  match f with
  | S754_zero _ => Some 0%Z
  | S754_infinity _ => None
  | S754_nan => None
  | S754_finite sign m e =>
      let mag := (if (0 <=? e)%Z then Z.shiftl (Zpos m) e
                  else Z.shiftr (Zpos m) (- e))%Z in
      Some (if sign then (- mag)%Z else mag)
  end.

(** [int(value)] on a JSON value; [None] when it raises. *)
Definition of_json (value : json) : option Z :=
  match value with
  | JInt z => Some z
  | JBool b => Some (if b then 1 else 0)%Z
  | JFloat f => of_float f
  | JStr s => of_str s
  | JNull | JArr _ | JObj _ => None
  end.

End PyInt.

(** [raw.items()]: only a [dict] has the method. *)
Definition json_items (raw : json) : result (list (string * json)) :=
  match raw with
  | JObj items => Ok items
  | _ => Raise AttributeError
  end.

(** One turn of the loop of [load_progress]. *)
Definition load_step (cleaned : dict Z) (item : string * json) : dict Z :=
  let '(key, value) := item in
  let topic_key := normalize_topic key in
  if PyStr.is_empty topic_key then cleaned
  else match PyInt.of_json value with
       | Some n =>
           Dict.set topic_key (Dict.get_default topic_key 0%Z cleaned + n)%Z cleaned
       | None => cleaned
       end.

(** [load_progress] as a function of what the file holds. *)
Definition load_payload (p : payload) : result (dict Z) :=
  let raw := match p with Unreadable => JObj [] | Parsed v => v end in
  match json_items raw with
  | Ok items => Ok (fold_left load_step items [])
  | Raise e => Raise e
  end.

(** What [json.loads] reads back from [json.dumps(data, indent=4)]. *)
Definition dumps (data : dict Z) : json :=
  JObj (map (fun kv => (fst kv, JInt (snd kv))) data).

(** ** The world: files and clock *)

(** [datetime.datetime.now()] *)
Record datetime : Type := {
  year : nat; month : nat; day : nat; hour : nat; minute : nat; second : nat
}.

Definition decimal (n : nat) : string := NilEmpty.string_of_uint (Nat.to_uint n).

Definition pad2 (n : nat) : string :=
  if (n <? 10)%nat then "0" ++ decimal n else decimal n.

(** [strftime("%Y%m%d_%H%M%S.txt")], for a year of four digits. *)
Definition note_filename (t : datetime) : string :=
  decimal (year t) ++ pad2 (month t) ++ pad2 (day t) ++ "_"
  ++ pad2 (hour t) ++ pad2 (minute t) ++ pad2 (second t) ++ ".txt".

Inductive io_event : Type :=
| ReadProgress
| WriteProgress
| WriteNote (filename : string).

Record World : Type := {
  progress_file : payload;
  notes_dir : dict string;
  now : datetime;
  io_log : list io_event
}.

Definition log_event (ev : io_event) (w : World) : World :=
  {| progress_file := progress_file w; notes_dir := notes_dir w;
     now := now w; io_log := (io_log w ++ [ev])%list |}.

(** State and exceptions. *)
Definition M (A : Type) : Type := World -> result (A * World).

Definition ret {A : Type} (a : A) : M A := fun w => Ok (a, w).

Definition bind {A B : Type} (m : M A) (k : A -> M B) : M B :=
  fun w => match m w with
           | Ok (a, w') => k a w'
           | Raise e => Raise e
           end.

Notation "x <- m ;; k" := (bind m (fun x => k))
  (at level 61, m at next level, right associativity).
Notation "m ;;; k" := (bind m (fun _ => k))
  (at level 61, right associativity).

Definition load_progress : M (dict Z) :=
  fun w => match load_payload (progress_file w) with
           | Ok cleaned => Ok (cleaned, log_event ReadProgress w)
           | Raise e => Raise e
           end.

Definition save_progress (data : dict Z) : M unit :=
  fun w => Ok (tt, log_event WriteProgress
                     {| progress_file := Parsed (dumps data);
                        notes_dir := notes_dir w; now := now w;
                        io_log := io_log w |}).

Definition is_api_error_text (text : string) : bool :=
  PyStr.startswith "Gemini API Error:" text.

(** ** The tracker *)

Definition get_difficulty (topic : string) : M string :=
  data <- load_progress ;;
  let score := Dict.get_default (normalize_topic topic) 0%Z data in
  if (5 <? score)%Z then ret "easy"
  else if (2 <? score)%Z then ret "medium"
  else ret "hard".

Definition update_progress (topic : string) : M unit :=
  let topic_key := normalize_topic topic in
  if PyStr.is_empty topic_key then ret tt
  else
    data <- load_progress ;;
    save_progress
      (Dict.set topic_key (Dict.get_default topic_key 0%Z data + 1)%Z data).

(** [save_note]: the file named by the clock is created or overwritten. *)
Definition save_note (text : string) : M string :=
  fun w =>
    let filename := note_filename (now w) in
    Ok (filename,
        log_event (WriteNote filename)
          {| progress_file := progress_file w;
             notes_dir := Dict.set filename text (notes_dir w);
             now := now w; io_log := io_log w |}).

(** [fn] is the tutoring operation passed in, run in the same world; what
    it returns is a [str] or, as [generate] can, [None], on which
    [is_api_error_text] raises ([None] has no [startswith]). *)
Definition run_and_track (topic : string) (fn : M pyval)
  : M (string * option string) :=
  result <- fn ;;
  match result with
  | PyNone => fun _ => Raise AttributeError
  | PyText result =>
      if is_api_error_text result then ret (result, None)
      else
        update_progress topic ;;;
        note <- save_note result ;;
        ret (result, Some note)
  end.

(** [update_progress] once per topic of a list, in order. *)
Fixpoint update_each (topics : list string) : M unit :=
  match topics with
  | [] => ret tt
  | t :: rest => update_progress t ;;; update_each rest
  end.

(** The count of a key as a reload of the store reports it. *)
Definition stored_count (k : string) (w : World) : result Z :=
  match load_payload (progress_file w) with
  | Ok data => Ok (Dict.get_default k 0%Z data)
  | Raise e => Raise e
  end.

(** A key in the form [normalize_topic] produces, the empty key apart. *)
Definition normal_key (k : string) : Prop :=
  normalize_topic k = k /\ PyStr.is_empty k = false.

(** A map as [load_progress] builds it: no key twice, every key normal. *)
Definition store_ok (d : dict Z) : Prop :=
  NoDup (Dict.keys d) /\ Forall normal_key (Dict.keys d).

(** What one raw entry of the file adds to the count of key [k]. *)
Definition contribution (k : string) (item : string * json) : Z :=
  if String.eqb (normalize_topic (fst item)) k && negb (PyStr.is_empty k)
  then match PyInt.of_json (snd item) with Some n => n | None => 0%Z end
  else 0%Z.

Definition sum_Z (l : list Z) : Z := fold_right Z.add 0%Z l.

(** The map [update_progress] saves for key [k] when it loaded [m]. *)
Definition bumped (k : string) (m : dict Z) : dict Z :=
  Dict.set k (Dict.get_default k 0%Z m + 1)%Z m.

(** The state in which the module leaves a new installation: the progress
    file holds an empty object and there are no notes. *)
Definition startup_world : World :=
  {| progress_file := Parsed (JObj []);
     notes_dir := [];
     now := {| year := 2026; month := 3; day := 7;
               hour := 9; minute := 5; second := 0 |};
     io_log := [] |}.

(** The contract of [run_and_track] as the specification words it, for a
    store that loads: a failure text changes nothing and comes back as it
    is; any other result adds one to the topic's count and one note file. *)
Definition tracks_as_specified (topic : string) (fn : M pyval) (w : World)
  : Prop :=
  forall result w1 c,
    fn w = Ok (result, w1) ->
    stored_count (normalize_topic topic) w1 = Ok c ->
    match result with
    | PyText text =>
        if is_api_error_text text
        then run_and_track topic fn w = Ok ((text, None), w1)
        else exists note w2,
            run_and_track topic fn w = Ok ((text, Some note), w2)
            /\ stored_count (normalize_topic topic) w2 = Ok (c + 1)%Z
            /\ List.length (notes_dir w2) = S (List.length (notes_dir w1))
    | PyNone =>
        exists out w2,
          run_and_track topic fn w = Ok (out, w2)
          /\ stored_count (normalize_topic topic) w2 = Ok (c + 1)%Z
          /\ List.length (notes_dir w2) = S (List.length (notes_dir w1))
    end.

(** What [save_note] does to the notes directory: the file named [filename]
    now holds [text], every other file is as before, and the directory has
    one file more exactly when no file of that name was there. *)
Definition note_saved (filename text : string) (before after : dict string)
  : Prop :=
  Dict.get filename after = Some text
  /\ (forall f, f <> filename -> Dict.get f after = Dict.get f before)
  /\ List.length after
     = (if Dict.mem filename before then List.length before
        else S (List.length before)).

(** ** The dispatcher *)

Module Genai.

(** The response of [client.models.generate_content], as far as
    [_extract_text] looks into it.  An attribute typed [Optional] is an
    [option]; [text] has one more level, [None] there meaning that the
    object has no such attribute. [str_of] is [str(response)]. *)
Record Part : Type := { part_text : pyval }.
Record Content : Type := { parts : option (list Part) }.
Record Candidate : Type := { content : option Content }.
Record Response : Type := {
  text : option pyval;
  candidates : option (list Candidate);
  str_of : string
}.

(** The [contents] argument: a prompt, or one attachment with its prompt. *)
Inductive Contents : Type :=
| TextContents (prompt : string)
| MediaContents (file_bytes mime_type prompt : string).

(** One call of [generate_content]: a response, or an exception [exc]
    given by [str(exc)]. *)
Inductive Outcome : Type :=
| Returns (response : Response)
| Fails (error_text : string).

Definition Client : Type := string -> Contents -> Outcome.

End Genai.
Import Genai.

Record SomaTutor : Type := {
  client : Client;
  model_candidates : list string
}.

(** [bool(v)] *)
Definition truthy (v : pyval) : bool :=
  match v with
  | PyNone => false
  | PyText s => negb (PyStr.is_empty s)
  end.

(** [xs[0]] on an [Optional] list. *)
Definition first_item {A : Type} (xs : option (list A)) : result A :=
  match xs with
  | None => Raise TypeError
  | Some [] => Raise IndexError
  | Some (x :: _) => Ok x
  end.

(** [response.candidates[0].content.parts[0].text] *)
Definition deep_text (response : Response) : result pyval :=
  match first_item (candidates response) with
  | Raise e => Raise e
  | Ok cand =>
      match content cand with
      | None => Raise AttributeError
      | Some c =>
          match first_item (parts c) with
          | Raise e => Raise e
          | Ok part => Ok (part_text part)
          end
      end
  end.

Definition _extract_text (response : Response) : pyval :=
  match text response with
  | Some t =>
      if truthy t then t
      else match deep_text response with
           | Ok v => v
           | Raise _ => PyText (str_of response)
           end
  | None =>
      match deep_text response with
      | Ok v => v
      | Raise _ => PyText (str_of response)
      end
  end.

Definition _is_not_found (err : string) : bool :=
  let lower := PyStr.lower err in
  PyStr.contains "404" lower
  && (PyStr.contains "not_found" lower || PyStr.contains "not found" lower).

Definition _classify_error (err : string) : string :=
  let lower := PyStr.lower err in
  if _is_not_found err then "NOT_FOUND"
  else if PyStr.contains "429" lower || PyStr.contains "resource_exhausted" lower
  then "QUOTA_EXHAUSTED"
  else if PyStr.contains "401" lower || PyStr.contains "unauthenticated" lower
          || PyStr.contains "invalid api key" lower
  then "AUTH"
  else if PyStr.contains "403" lower || PyStr.contains "permission_denied" lower
  then "PERMISSION"
  else if PyStr.contains "deadline_exceeded" lower
          || PyStr.contains "timed out" lower || PyStr.contains "timeout" lower
  then "TIMEOUT"
  else "ERROR".

(** The classification as the specification words it: the same patterns in
    the same order, the AUTH rule reading only "401" and "unauthenticated". *)
Definition classify_as_specified (err : string) : string :=
  let lower := PyStr.lower err in
  if PyStr.contains "404" lower
     && (PyStr.contains "not_found" lower || PyStr.contains "not found" lower)
  then "NOT_FOUND"
  else if PyStr.contains "429" lower || PyStr.contains "resource_exhausted" lower
  then "QUOTA_EXHAUSTED"
  else if PyStr.contains "401" lower || PyStr.contains "unauthenticated" lower
  then "AUTH"
  else if PyStr.contains "403" lower || PyStr.contains "permission_denied" lower
  then "PERMISSION"
  else if PyStr.contains "deadline_exceeded" lower
          || PyStr.contains "timeout" lower || PyStr.contains "timed out" lower
  then "TIMEOUT"
  else "ERROR".

(** The loop of [generate] from a given [last_error] on; the second
    component lists the models the client was called with, in order. *)
Fixpoint generate_from (cl : Client) (contents : Contents)
    (last_error : string) (models : list string) : pyval * list string :=
  match models with
  | [] =>
      (PyText ("Gemini API Error: all candidate models failed. Last error: "
               ++ last_error), [])
  | model_name :: rest =>
      match cl model_name contents with
      | Returns response => (_extract_text response, [model_name])
      | Fails error_text =>
          let last_error := model_name ++ ": " ++ error_text in
          if _is_not_found error_text then
            let '(out, called) := generate_from cl contents last_error rest in
            (out, model_name :: called)
          else (PyText ("Gemini API Error: " ++ error_text), [model_name])
      end
  end.

Definition generate (self : SomaTutor) (contents : Contents)
  : pyval * list string :=
  generate_from (client self) contents "" (model_candidates self).

(** *** [check_access] *)

Definition initial_statuses : dict nat :=
  [("OK", 0); ("NOT_FOUND", 0); ("QUOTA_EXHAUSTED", 0); ("AUTH", 0);
   ("PERMISSION", 0); ("TIMEOUT", 0); ("ERROR", 0)].

(** [statuses[k]] *)
Definition subscript (k : string) (statuses : dict nat) : result nat :=
  match Dict.get k statuses with
  | Some n => Ok n
  | None => Raise KeyError
  end.

(** [statuses[k] += 1] *)
Definition increment (k : string) (statuses : dict nat) : result (dict nat) :=
  match Dict.get k statuses with
  | Some n => Ok (Dict.set k (n + 1) statuses)
  | None => Raise KeyError
  end.

(** The [except] branch of the probe loop. *)
Definition probe_failed (model_name error_text : string) : string * string :=
  let bucket := _classify_error error_text in
  (bucket,
   "[" ++ bucket ++ "] " ++ model_name ++ " -> " ++ PyStr.take 180 error_text).

(** One turn of the probe loop: the bucket to count and the line to add.
    [.strip()] on [None] raises inside the [try], so that turn ends in the
    [except] branch with the text of that [AttributeError]. *)
Definition probe (self : SomaTutor) (model_name : string) : string * string :=
  match client self model_name (TextContents "Reply with exactly: OK") with
  | Returns response =>
      match _extract_text response with
      | PyText t =>
          ("OK",
           "[OK] " ++ model_name ++ " -> " ++ PyStr.take 120 (PyStr.strip t))
      | PyNone =>
          probe_failed model_name "'NoneType' object has no attribute 'strip'"
      end
  | Fails error_text => probe_failed model_name error_text
  end.

Fixpoint probe_all (self : SomaTutor) (models : list string)
    (statuses : dict nat) (lines : list string)
  : result (dict nat * list string) :=
  match models with
  | [] => Ok (statuses, lines)
  | model_name :: rest =>
      let '(bucket, line) := probe self model_name in
      match increment bucket statuses with
      | Ok statuses' => probe_all self rest statuses' (lines ++ [line])%list
      | Raise e => Raise e
      end
  end.

(** [", ".join(f"{k}={v}" for k, v in statuses.items() if v > 0)] *)
Definition summary_items (statuses : dict nat) : string :=
  PyStr.join ", "
    (map (fun kv => fst kv ++ "=" ++ decimal (snd kv))
         (filter (fun kv => (0 <? snd kv)%nat) statuses)).

(** The closing [if]/[elif] chain of [check_access]. *)
Definition verdict (statuses : dict nat) (n_models : nat) : result string :=
  match subscript "OK" statuses with
  | Raise e => Raise e
  | Ok ok =>
    if (0 <? ok)%nat
    then Ok "Result: Gemini is reachable. At least one configured model works."
    else
    match subscript "AUTH" statuses with
    | Raise e => Raise e
    | Ok auth =>
      if (0 <? auth)%nat
      then Ok "Blocked by authentication. Check GOOGLE_API_KEY."
      else
      match subscript "PERMISSION" statuses with
      | Raise e => Raise e
      | Ok perm =>
        if (0 <? perm)%nat
        then Ok "Blocked by project/API permissions for this key."
        else
        match subscript "QUOTA_EXHAUSTED" statuses with
        | Raise e => Raise e
        | Ok quota =>
          if (0 <? quota)%nat
          then Ok "Blocked by quota/billing limits on this project."
          else
          match subscript "NOT_FOUND" statuses with
          | Raise e => Raise e
          | Ok nf =>
            if (nf =? n_models)%nat
            then Ok "Blocked by model names. None of the configured models are available."
            else Ok "Blocked by API/network/runtime errors. See per-model details above."
          end
        end
      end
    end
  end.

Definition newline : string := String (ascii_of_nat 10) EmptyString.

Definition check_access (self : SomaTutor) : result string :=
  let dashes := PyStr.repeat_char "-" 40 in
  match probe_all self (model_candidates self) initial_statuses
          ["Gemini access check"; dashes] with
  | Raise e => Raise e
  | Ok (statuses, lines) =>
      let summary := "Summary: " ++ summary_items statuses in
      let lines := (lines ++ [dashes; summary])%list in
      match verdict statuses (List.length (model_candidates self)) with
      | Raise e => Raise e
      | Ok line => Ok (PyStr.join newline (lines ++ [line])%list)
      end
  end.

(** The bucket each configured model is counted in. *)
Definition tags (self : SomaTutor) : list string :=
  map (fun m => fst (probe self m)) (model_candidates self).

(** *** The specification's view of the response *)

(** The direct text field, when the response has one and it is populated. *)
Definition direct_text (response : Response) : option string :=
  match text response with
  | Some (PyText (String c s)) => Some (String c s)
  | _ => None
  end.

(** The first content part of the first candidate, when there is one. *)
Definition first_part (response : Response) : option Part :=
  match candidates response with
  | Some (cand :: _) =>
      match content cand with
      | Some c =>
          match parts c with
          | Some (part :: _) => Some part
          | _ => None
          end
      | None => None
      end
  | _ => None
  end.

(** The three-step extraction as the specification words it: the direct
    text when it is populated; otherwise the text in the first content part
    of the first candidate; otherwise the string form of the whole
    response. Its answer is always a text. *)
Definition extraction_as_specified (response : Response) : string :=
  match direct_text response with
  | Some s => s
  | None =>
      match first_part response with
      | Some {| part_text := PyText s |} => s
      | _ => str_of response
      end
  end.

(** A response whose only part carries no text (an attachment, a function
    call): [response.text] is [None] and so is the part's [text]. *)
Definition textless_response : Response :=
  {| text := Some PyNone;
     candidates :=
       Some [{| content := Some {| parts := Some [{| part_text := PyNone |}] |} |}];
     str_of := "<response>" |}.

(** The value of [last_error] once the loop of [generate] has gone through
    [models], each of which failed. *)
Definition last_error_after (cl : Client) (contents : Contents)
    (last_error : string) (models : list string) : string :=
  fold_left
    (fun acc model_name =>
       match cl model_name contents with
       | Fails error_text => model_name ++ ": " ++ error_text
       | Returns _ => acc
       end)
    models last_error.

(** Every model of the list fails with a "not found" error. *)
Definition all_not_found (cl : Client) (contents : Contents)
    (models : list string) : Prop :=
  Forall (fun m => exists e, cl m contents = Fails e /\ _is_not_found e = true)
         models.

(** The substrings the specification lists for the classification. *)
Definition specified_patterns : list string :=
  ["404"; "not_found"; "not found"; "429"; "resource_exhausted"; "401";
   "unauthenticated"; "403"; "permission_denied"; "deadline_exceeded";
   "timeout"; "timed out"].

(** "Any other message gives ERROR", as the specification words it. *)
Definition unmatched_is_error : Prop :=
  forall err,
    (forall p, In p specified_patterns ->
               PyStr.contains p (PyStr.lower err) = false) ->
    _classify_error err = "ERROR".

(** [p in err.lower()] *)
Definition has (p err : string) : bool := PyStr.contains p (PyStr.lower err).

Definition status_keys : list string :=
  ["OK"; "NOT_FOUND"; "QUOTA_EXHAUSTED"; "AUTH"; "PERMISSION"; "TIMEOUT"; "ERROR"].

Definition count_tag (t : string) (ts : list string) : nat :=
  count_occ string_dec ts t.

(** A client for the examples: model "a" is unknown, "b" answers, any other
    model times out. *)
Definition sample_client : Client :=
  fun model _ =>
    if String.eqb model "a" then Fails "404 NOT_FOUND: models/a"
    else if String.eqb model "b"
    then Returns {| text := Some (PyText "OK"); candidates := None;
                    str_of := "<response>" |}
    else Fails "Deadline exceeded: timeout".

(** * The rest of the module *)

(** ** More of [str] *)

Module PyStrExt.

(** [s] holds nothing but whitespace (the empty string included). *)
Fixpoint blank (s : string) : bool :=
  match s with
  | EmptyString => true
  | String c s' => PyStr.is_space c && blank s'
  end.

(** The scan of [s.split(sep)] for a separator of one character. *)
Fixpoint split_on_from (sep : ascii) (cur s : string) : list string :=
  match s with
  | EmptyString => [cur]
  | String c s' =>
      if Ascii.eqb c sep then cur :: split_on_from sep EmptyString s'
      else split_on_from sep (cur ++ String c EmptyString) s'
  end.

(** [s.split(sep)] *)
Definition split_on (sep : ascii) (s : string) : list string :=
  split_on_from sep EmptyString s.

End PyStrExt.

(** ** Views of the tracker used in the statements *)

(** The raw entry [item] is one that [load_progress] adds to key [k]. *)
Definition counts_for (k : string) (item : string * json) : bool :=
  String.eqb (normalize_topic (fst item)) k
  && negb (PyStr.is_empty k)
  && match PyInt.of_json (snd item) with Some _ => true | None => false end.

(** The tier [get_difficulty] answers for a score. *)
Definition tier_of (score : Z) : string :=
  if (5 <? score)%Z then "easy"
  else if (2 <? score)%Z then "medium"
  else "hard".

(** What one [update_progress] does to the map the store loads to. *)
Definition after_update (topic : string) (m : dict Z) : dict Z :=
  if PyStr.is_empty (normalize_topic topic) then m
  else bumped (normalize_topic topic) m.

(** ** Configuration *)

(** The process environment once [load_dotenv()] has run. *)
Definition Environ : Type := string -> option string.

(** [os.getenv(name, default)] *)
Definition getenv (env : Environ) (name default : string) : string :=
  match env name with
  | Some v => v
  | None => default
  end.

Definition DEFAULT_MODELS : list string :=
  ["gemini-2.5-flash-lite"; "gemini-2.0-flash-lite"; "gemini-2.0-flash"].

(** [[m.strip() for m in models_from_list.split(",") if m.strip()]] *)
Definition parsed_models (models_from_list : string) : list string :=
  map PyStr.strip
      (filter (fun m => negb (PyStr.is_empty (PyStr.strip m)))
              (PyStrExt.split_on "," models_from_list)).

Definition parse_model_candidates (env : Environ) : list string :=
  let models_from_list := PyStr.strip (getenv env "GEMINI_MODELS" "") in
  let fallback :=
    let single := PyStr.strip (getenv env "GEMINI_MODEL" "") in
    if negb (PyStr.is_empty single) then [single] else DEFAULT_MODELS in
  if negb (PyStr.is_empty models_from_list) then
    match parsed_models models_from_list with
    | [] => fallback
    | parsed => parsed
    end
  else fallback.

Definition API_KEY (env : Environ) : string :=
  PyStr.strip (getenv env "GOOGLE_API_KEY" "").

Definition MODEL_CANDIDATES (env : Environ) : list string :=
  parse_model_candidates env.

(** What [SomaTutor()] comes to: an instance, or a [ValueError]. *)
Inductive Construction : Type :=
| Instance (self : SomaTutor)
| ValueError (message : string).

(** [SomaTutor.__init__]; [make_client key] stands for
    [genai.Client(api_key=key)]. *)
Definition SomaTutor_init (env : Environ) (make_client : string -> Client)
  : Construction :=
  if PyStr.is_empty (API_KEY env)
  then ValueError "Missing GOOGLE_API_KEY in environment/.env"
  else Instance {| client := make_client (API_KEY env);
                   model_candidates := MODEL_CANDIDATES env |}.

(** [s] is empty or starts with a character that is not whitespace. *)
Definition lead_ok (s : string) : bool :=
  match s with
  | EmptyString => true
  | String c _ => negb (PyStr.is_space c)
  end.

(** A model name as the configuration yields them: not empty, no
    whitespace at either end. *)
Definition clean_name (m : string) : Prop :=
  PyStr.is_empty m = false /\ PyStr.strip m = m.

(** ** Media types *)

Definition image_map : dict string :=
  [(".jpg", "image/jpeg"); (".jpeg", "image/jpeg"); (".png", "image/png");
   (".webp", "image/webp")].

Definition audio_map : dict string :=
  [(".wav", "audio/wav"); (".mp3", "audio/mpeg"); (".m4a", "audio/mp4");
   (".aac", "audio/aac"); (".flac", "audio/flac"); (".ogg", "audio/ogg")].

(** [a or b] for [a] that is [None] or a [str] and [b] a [str]. *)
Definition or_else (a : option string) (b : string) : string :=
  match a with
  | Some s => if PyStr.is_empty s then b else s
  | None => b
  end.

(** [pick_mime_type]; [suffix p] stands for [Path(p).suffix]. *)
Definition pick_mime_type (suffix : string -> string) (file_path : string)
  : string :=
  let ext := PyStr.lower (suffix file_path) in
  or_else (Dict.get ext image_map)
          (or_else (Dict.get ext audio_map) "application/octet-stream").

(** An environment for the examples. *)
Definition sample_env : Environ :=
  fun name =>
    if String.eqb name "GEMINI_MODELS" then Some " , gemini-pro ,, flash-x "
    else if String.eqb name "GEMINI_MODEL" then Some "ignored"
    else if String.eqb name "GOOGLE_API_KEY" then Some " key-123 "
    else None.

(** ** The tutoring operations *)

Definition ask_prompt (difficulty topic question : string) : string :=
  PyStr.strip
    (newline ++ "You are Soma AI, an adaptive learning tutor." ++ newline
     ++ newline
     ++ "Difficulty level: " ++ difficulty ++ newline
     ++ "Topic: " ++ topic ++ newline
     ++ newline
     ++ "Explain clearly step-by-step." ++ newline
     ++ "Use examples." ++ newline
     ++ "Adjust depth based on difficulty." ++ newline
     ++ newline
     ++ "Question:" ++ newline
     ++ question ++ newline).

Definition summarize_prompt (text : string) : string :=
  PyStr.strip
    (newline ++ "Convert this into structured bullet notes." ++ newline
     ++ "Highlight key ideas, definitions, and examples." ++ newline
     ++ newline
     ++ "Text:" ++ newline
     ++ text ++ newline).

Definition quiz_prompt (topic : string) : string :=
  PyStr.strip
    (newline ++ "Create 5 university-level quiz questions." ++ newline
     ++ "Provide answers at the end." ++ newline
     ++ newline
     ++ "Topic: " ++ topic ++ newline).

Definition image_prompt : string :=
  "Analyze this photo in detail. Describe visible objects, setting, actions, "
  ++ "text in image, and notable visual cues. Then provide a structured summary.".

Definition audio_prompt : string :=
  "Transcribe this lecture audio faithfully. Then provide:" ++ newline
  ++ "1) clean transcript," ++ newline
  ++ "2) key points," ++ newline
  ++ "3) short revision summary," ++ newline
  ++ "4) 5 quiz questions.".

(** Each operation returns what [generate] returns, with the models called. *)
Definition ask (self : SomaTutor) (topic question : string)
  : M (pyval * list string) :=
  difficulty <- get_difficulty topic ;;
  ret (generate self (TextContents (ask_prompt difficulty topic question))).

Definition summarize (self : SomaTutor) (text : string) : pyval * list string :=
  generate self (TextContents (summarize_prompt text)).

Definition generate_quiz (self : SomaTutor) (topic : string)
  : pyval * list string :=
  generate self (TextContents (quiz_prompt topic)).

Definition _analyze_bytes (self : SomaTutor)
    (file_bytes mime_type prompt : string) : pyval * list string :=
  generate self (MediaContents file_bytes mime_type prompt).

Definition analyze_image_bytes (self : SomaTutor)
    (image_bytes mime_type : string) : pyval * list string :=
  _analyze_bytes self image_bytes mime_type image_prompt.

Definition transcribe_audio_bytes (self : SomaTutor)
    (audio_bytes mime_type : string) : pyval * list string :=
  _analyze_bytes self audio_bytes mime_type audio_prompt.

(** *** Local files *)

(** What a call of [path.exists()] or [path.is_file()] comes to: a truth
    value, or the [OSError] it lets through (permission denied on a parent
    directory, a name too long). *)
Inductive StatOutcome : Type :=
| StatTrue
| StatFalse
| StatRaises (exc : string).

(** What [path.read_bytes()] comes to. *)
Inductive ReadOutcome : Type :=
| ReadBytes (data : string)
| ReadPermissionError
| ReadException (exc : string).

(** What the file system answers at a path, call by call. *)
Record PathState : Type := {
  path_exists : StatOutcome;
  path_is_file : StatOutcome;
  path_read_bytes : ReadOutcome
}.

Definition FileSystem : Type := string -> PathState.

(** What a file operation comes to: the value [generate] or a message
    gives, with the models called, or the exception raised by the checks
    that stand outside the [try]. *)
Inductive FileResult : Type :=
| Returned (out : pyval * list string)
| RaisedOSError (exc : string).

Definition analyze_image (self : SomaTutor) (fs : FileSystem)
    (suffix : string -> string) (image_path : string) : FileResult :=
  let clean_path := PyStr.strip image_path in
  if PyStr.is_empty clean_path
  then Returned (PyText "No image selected.", [])
  else
    match path_exists (fs clean_path) with
    | StatRaises exc => RaisedOSError exc
    | StatFalse => Returned (PyText "Image file not found.", [])
    | StatTrue =>
        match path_is_file (fs clean_path) with
        | StatRaises exc => RaisedOSError exc
        | StatFalse => Returned (PyText "Provided path is not a file.", [])
        | StatTrue =>
            match path_read_bytes (fs clean_path) with
            | ReadPermissionError =>
                Returned (PyText "Permission denied while reading image.", [])
            | ReadException exc =>
                Returned (PyText ("Could not read image: " ++ exc), [])
            | ReadBytes data =>
                Returned (analyze_image_bytes self data
                            (pick_mime_type suffix clean_path))
            end
        end
    end.

Definition transcribe_audio (self : SomaTutor) (fs : FileSystem)
    (suffix : string -> string) (audio_path : string) : FileResult :=
  let clean_path := PyStr.strip audio_path in
  if PyStr.is_empty clean_path
  then Returned (PyText "No audio selected.", [])
  else
    match path_exists (fs clean_path) with
    | StatRaises exc => RaisedOSError exc
    | StatFalse => Returned (PyText "Audio file not found.", [])
    | StatTrue =>
        match path_is_file (fs clean_path) with
        | StatRaises exc => RaisedOSError exc
        | StatFalse => Returned (PyText "Provided path is not a file.", [])
        | StatTrue =>
            match path_read_bytes (fs clean_path) with
            | ReadPermissionError =>
                Returned (PyText "Permission denied while reading audio.", [])
            | ReadException exc =>
                Returned (PyText ("Could not read audio: " ++ exc), [])
            | ReadBytes data =>
                Returned (transcribe_audio_bytes self data
                            (pick_mime_type suffix clean_path))
            end
        end
    end.

(** The path is a regular file whose bytes are read. *)
Definition readable (st : PathState) (data : string) : Prop :=
  path_exists st = StatTrue /\ path_is_file st = StatTrue
  /\ path_read_bytes st = ReadBytes data.

(** The first of the two checks to raise, with what it raises. *)
Definition check_raises (st : PathState) (exc : string) : Prop :=
  path_exists st = StatRaises exc
  \/ (path_exists st = StatTrue /\ path_is_file st = StatRaises exc).

(** *** The web handler of /ask *)

Definition raise {A : Type} (e : exn) : M A := fun _ => Raise e.

(** [request.form.get(name, "")] *)
Definition Form : Type := string -> option string.

(** The body of [ask_tutor] up to [render_template]: the [result] and the
    [error] handed to the page. *)
Definition ask_tutor (self : SomaTutor) (method : string) (form : Form)
  : M (pyval * string) :=
  if String.eqb method "POST" then
    let topic := PyStr.strip (getenv form "topic" "") in
    let question := PyStr.strip (getenv form "question" "") in
    if PyStr.is_empty topic || PyStr.is_empty question
    then ret (PyText "", "Topic and question are required.")
    else
      answer <- ask self topic question ;;
      match fst answer with
      | PyNone => raise AttributeError
      | PyText result =>
          if negb (is_api_error_text result)
          then update_progress topic ;;; ret (PyText result, "")
          else ret (PyText result,
                    "Gemini request failed. Progress was not updated.")
      end
  else ret (PyText "", "").

(** A file system for the examples. *)
Definition sample_fs : FileSystem :=
  fun path =>
    if String.eqb path "notes/board.PNG"
    then {| path_exists := StatTrue; path_is_file := StatTrue;
            path_read_bytes := ReadBytes "<png>" |}
    else if String.eqb path "notes"
    then {| path_exists := StatTrue; path_is_file := StatFalse;
            path_read_bytes := ReadException "[Errno 21] Is a directory" |}
    else if String.eqb path "locked/board.png"
    then {| path_exists := StatRaises "[Errno 13] Permission denied";
            path_is_file := StatRaises "[Errno 13] Permission denied";
            path_read_bytes := ReadPermissionError |}
    else {| path_exists := StatFalse; path_is_file := StatFalse;
            path_read_bytes := ReadException "[Errno 2] No such file" |}.

Definition sample_form : Form :=
  fun name =>
    if String.eqb name "topic" then Some " Linear  Algebra "
    else if String.eqb name "question" then Some "What is a basis? "
    else None.

(** The fixed part of each prompt, up to the last field. *)
Definition ask_head (difficulty topic : string) : string :=
  "You are Soma AI, an adaptive learning tutor." ++ newline
  ++ newline
  ++ "Difficulty level: " ++ difficulty ++ newline
  ++ "Topic: " ++ topic ++ newline
  ++ newline
  ++ "Explain clearly step-by-step." ++ newline
  ++ "Use examples." ++ newline
  ++ "Adjust depth based on difficulty." ++ newline
  ++ newline
  ++ "Question:".

Definition summarize_head : string :=
  "Convert this into structured bullet notes." ++ newline
  ++ "Highlight key ideas, definitions, and examples." ++ newline
  ++ newline
  ++ "Text:".

Definition quiz_head : string :=
  "Create 5 university-level quiz questions." ++ newline
  ++ "Provide answers at the end." ++ newline
  ++ newline
  ++ "Topic:".

(** ** The clock *)

(** A clock reading whose year has four digits; the other fields have at
    most two, as every [datetime] has. *)
Definition valid_clock (t : datetime) : Prop :=
  (1000 <= year t < 10 * 1000 /\ month t < 100 /\ day t < 100
   /\ hour t < 100 /\ minute t < 100 /\ second t < 100)%nat.

(** The same world when the clock reads [t]. *)
Definition at_time (t : datetime) (w : World) : World :=
  {| progress_file := progress_file w; notes_dir := notes_dir w;
     now := t; io_log := io_log w |}.

(** * Properties *)

(** ** Lemmas on strings *)

Module PyStrFacts.
Import PyStr.

Lemma append_nil_r (s : string) : s ++ "" = s.
Proof. induction s as [|c s IH]; simpl; [reflexivity | now rewrite IH]. Qed.

Lemma append_assoc (a b c : string) : (a ++ b) ++ c = a ++ (b ++ c).
Proof. induction a as [|x a IH]; simpl; [reflexivity | now rewrite IH]. Qed.

Lemma is_space_lower (c : ascii) : is_space (lower_char c) = is_space c.
Proof. destruct c as [[] [] [] [] [] [] [] []]; reflexivity. Qed.

Lemma lower_char_idem (c : ascii) : lower_char (lower_char c) = lower_char c.
Proof. destruct c as [[] [] [] [] [] [] [] []]; reflexivity. Qed.

Lemma lower_app (a b : string) : lower (a ++ b) = lower a ++ lower b.
Proof. induction a as [|x a IH]; simpl; [reflexivity | now rewrite IH]. Qed.

Lemma lower_idem (s : string) : lower (lower s) = lower s.
Proof.
  induction s as [|c s IH]; simpl; [reflexivity|].
  now rewrite lower_char_idem, IH.
Qed.

Lemma is_empty_true (s : string) : is_empty s = true -> s = "".
Proof. destruct s; simpl; [reflexivity | discriminate]. Qed.

Lemma is_empty_lower (s : string) : is_empty (lower s) = is_empty s.
Proof. destruct s; reflexivity. Qed.

Lemma is_empty_snoc (s : string) (c : ascii) : is_empty (s ++ String c "") = false.
Proof. destruct s; reflexivity. Qed.

(** *** The scan is a congruence for what follows a common prefix *)


Lemma split_from_space (w : ascii) (s cur : string) :
  is_space w = true ->
  split_from cur (String w s) = emit cur (split s).
Proof. intros Hw. simpl. now rewrite Hw. Qed.

Lemma split_lead (w : ascii) (s : string) :
  is_space w = true -> split (String w s) = split s.
Proof. intros Hw. unfold split. now rewrite split_from_space. Qed.





(** *** [strip] is invisible to [split] *)

Lemma split_lstrip (s : string) : split (lstrip s) = split s.
Proof.
  induction s as [|c s IH]; simpl; [reflexivity|].
  destruct (is_space c) eqn:Hc; [|reflexivity].
  now rewrite IH, split_lead.
Qed.

Lemma split_from_rstrip (s cur : string) :
  split_from cur (rstrip s) = split_from cur s.
Proof.
  revert cur. induction s as [|c s IH]; intros cur; simpl; [reflexivity|].
  destruct (is_space c) eqn:Hc; simpl.
  - destruct (is_empty (rstrip s)) eqn:He; simpl.
    + apply is_empty_true in He.
      specialize (IH ""). rewrite He in IH. simpl in IH.
      now rewrite <- IH.
    + rewrite Hc. now rewrite IH.
  - rewrite Hc. apply IH.
Qed.

Lemma split_strip (s : string) : split (strip s) = split s.
Proof.
  unfold strip, split. rewrite split_from_rstrip. apply split_lstrip.
Qed.

(** *** Lower-casing commutes with the scan and with [join] *)

Lemma emit_lower (cur : string) (l : list string) :
  emit (lower cur) (map lower l) = map lower (emit cur l).
Proof. unfold emit. rewrite is_empty_lower. now destruct (is_empty cur). Qed.

Lemma split_from_lower (s cur : string) :
  split_from (lower cur) (lower s) = map lower (split_from cur s).
Proof.
  revert cur. induction s as [|c s IH]; intros cur; simpl.
  - apply (emit_lower cur []).
  - rewrite is_space_lower. destruct (is_space c).
    + rewrite <- emit_lower. f_equal. apply (IH "").
    + rewrite <- IH, lower_app. reflexivity.
Qed.

Lemma split_lower (s : string) : split (lower s) = map lower (split s).
Proof. apply (split_from_lower s ""). Qed.

Lemma lower_join (ws : list string) :
  lower (join " " ws) = join " " (map lower ws).
Proof.
  unfold join. induction ws as [|w ws IH]; simpl; [reflexivity|].
  destruct ws as [|w' ws]; simpl; [reflexivity|].
  rewrite lower_app. simpl. f_equal. f_equal. exact IH.
Qed.

(** [normalize_topic] reads its argument only through its lower-casing. *)
Lemma normalize_topic_alt (s : string) :
  normalize_topic s = join " " (split (lower s)).
Proof.
  unfold normalize_topic. now rewrite lower_join, split_strip, split_lower.
Qed.

End PyStrFacts.

(** ** Case pairs *)

Module CasePairFacts.
Import PyStr.





End CasePairFacts.

(** ** [normalize_topic]: normal forms and invariance *)

Module NormalizeFacts.
Import PyStr PyStrFacts.

Lemma space_free_app (a b : string) :
  space_free (a ++ b) = space_free a && space_free b.
Proof.
  induction a as [|c a IH]; simpl; [reflexivity|].
  now rewrite IH, andb_assoc.
Qed.

Lemma space_free_lower (s : string) : space_free (lower s) = space_free s.
Proof.
  induction s as [|c s IH]; simpl; [reflexivity|].
  now rewrite is_space_lower, IH.
Qed.

Lemma word_lower (w : string) : word w -> word (lower w).
Proof.
  intros [Hne Hsf]. split.
  - now rewrite is_empty_lower.
  - now rewrite space_free_lower.
Qed.

Lemma Forall_map_lower (ws : list string) :
  Forall word ws -> Forall word (map lower ws).
Proof.
  induction 1 as [|w ws Hw _ IH]; simpl; constructor;
    [now apply word_lower | assumption].
Qed.

Lemma emit_words (cur : string) (l : list string) :
  space_free cur = true -> Forall word l -> Forall word (emit cur l).
Proof.
  intros Hc Hl. unfold emit. destruct (is_empty cur) eqn:He; [assumption|].
  constructor; [split|]; assumption.
Qed.

Lemma split_from_words (s cur : string) :
  space_free cur = true -> Forall word (split_from cur s).
Proof.
  revert cur. induction s as [|c s IH]; intros cur Hcur; simpl.
  - apply emit_words; [assumption | constructor].
  - destruct (is_space c) eqn:Hc.
    + apply emit_words; [assumption | now apply IH].
    + apply IH. rewrite space_free_app, Hcur. simpl. now rewrite Hc.
Qed.

Lemma split_words (s : string) : Forall word (split s).
Proof. now apply split_from_words. Qed.

Lemma split_from_word (w rest cur : string) :
  space_free w = true ->
  split_from cur (w ++ rest) = split_from (cur ++ w) rest.
Proof.
  revert cur. induction w as [|c w IH]; intros cur Hw; simpl.
  - now rewrite append_nil_r.
  - simpl in Hw. apply andb_true_iff in Hw as [Hc Hw].
    apply negb_true_iff in Hc. rewrite Hc, IH by assumption.
    now rewrite append_assoc.
Qed.

Lemma split_join (ws : list string) :
  Forall word ws -> split (join " " ws) = ws.
Proof.
  unfold split, join. induction 1 as [|w ws [Hne Hsf] Hws IH]; [reflexivity|].
  destruct ws as [|w' ws].
  - simpl. rewrite <- (append_nil_r w) at 1.
    rewrite split_from_word by assumption. simpl.
    unfold emit. now rewrite Hne.
  - change (String.concat " " (w :: w' :: ws))
      with (w ++ String " " (String.concat " " (w' :: ws))).
    rewrite split_from_word by assumption.
    rewrite split_from_space by reflexivity.
    unfold emit, split. simpl append. rewrite Hne. now rewrite IH.
Qed.

Lemma join_word_nonempty (w : string) (ws : list string) :
  is_empty w = false -> is_empty (join " " (w :: ws)) = false.
Proof.
  intros Hw. unfold join. destruct w; [discriminate|].
  destruct ws; reflexivity.
Qed.

Lemma map_lower_idem (ws : list string) :
  map lower (map lower ws) = map lower ws.
Proof.
  induction ws as [|w ws IH]; simpl; [reflexivity|].
  now rewrite lower_idem, IH.
Qed.

(** A key produced by [normalize_topic] is its own normal form. *)
Lemma normalize_topic_idem (s : string) :
  normalize_topic (normalize_topic s) = normalize_topic s.
Proof.
  rewrite (normalize_topic_alt (normalize_topic s)), (normalize_topic_alt s).
  rewrite lower_join, split_join.
  - now rewrite split_lower, map_lower_idem.
  - apply Forall_map_lower, split_words.
Qed.


End NormalizeFacts.

(** ** The strings of the first 256 code points within all strings *)

Module UnicodeFacts.

















End UnicodeFacts.




(** Nor are a letter and its two-letter capital form a case pair here: the
    key of "STRASSE" is "strasse", that of "stra\u00DFe" keeps its
    sharp s. *)
Lemma normalize_topic_sharp_s :
  normalize_topic "STRASSE" = "strasse"
  /\ normalize_topic ("stra" ++ String (ascii_of_nat 223) "e")
     = "stra" ++ String (ascii_of_nat 223) "e"
  /\ normalize_topic "STRASSE"
     <> normalize_topic ("stra" ++ String (ascii_of_nat 223) "e").
Proof. repeat split. intros H. vm_compute in H. discriminate. Qed.

(** ** Dictionaries *)

Module DictFacts.
Section Facts.
Context {V : Type}.
Implicit Types (d : dict V) (k : string) (v : V).

Lemma get_set_same k v d : Dict.get k (Dict.set k v d) = Some v.
Proof.
  induction d as [|[k' v'] d IH]; simpl.
  - now rewrite String.eqb_refl.
  - destruct (String.eqb k k') eqn:E; simpl; rewrite ?String.eqb_refl, ?E; auto.
Qed.

Lemma get_set_other k k' v d :
  k' <> k -> Dict.get k' (Dict.set k v d) = Dict.get k' d.
Proof.
  intros Hne. induction d as [|[k0 v0] d IH]; simpl.
  - apply String.eqb_neq in Hne. now rewrite Hne.
  - destruct (String.eqb k k0) eqn:E; simpl.
    + apply String.eqb_eq in E. subst k0.
      apply String.eqb_neq in Hne. now rewrite Hne.
    + now rewrite IH.
Qed.

Lemma get_none_iff k d : Dict.get k d = None <-> ~ In k (Dict.keys d).
Proof.
  induction d as [|[k' v'] d IH]; simpl.
  - tauto.
  - destruct (String.eqb k k') eqn:E.
    + apply String.eqb_eq in E. subst. split; [discriminate | tauto].
    + apply String.eqb_neq in E. rewrite IH. split; intros H; [|tauto].
      intros [H' | H']; [congruence | tauto].
Qed.

Lemma set_fresh k v d :
  Dict.get k d = None -> Dict.set k v d = (d ++ [(k, v)])%list.
Proof.
  induction d as [|[k' v'] d IH]; simpl; [reflexivity|].
  destruct (String.eqb k k'); [discriminate|].
  intros H. now rewrite IH.
Qed.

Lemma set_present k v d :
  Dict.get k d <> None -> Dict.keys (Dict.set k v d) = Dict.keys d.
Proof.
  induction d as [|[k' v'] d IH]; simpl; [congruence|].
  destruct (String.eqb k k') eqn:E; simpl.
  - apply String.eqb_eq in E. now subst.
  - intros H. now rewrite IH.
Qed.

Lemma length_set_present k v d :
  Dict.mem k d = true -> List.length (Dict.set k v d) = List.length d.
Proof.
  unfold Dict.mem. induction d as [|[k' v'] d IH]; simpl; [discriminate|].
  destruct (String.eqb k k'); simpl; [reflexivity|].
  intros H. now rewrite IH.
Qed.

Lemma length_set_fresh k v d :
  Dict.mem k d = false -> List.length (Dict.set k v d) = S (List.length d).
Proof.
  unfold Dict.mem. intros H. rewrite set_fresh.
  - rewrite length_app. simpl. lia.
  - now destruct (Dict.get k d).
Qed.

Lemma keys_app d d' : Dict.keys (d ++ d')%list = (Dict.keys d ++ Dict.keys d')%list.
Proof. apply map_app. Qed.

Lemma keys_set_cases k v d :
  Dict.keys (Dict.set k v d) = Dict.keys d
  \/ (~ In k (Dict.keys d)
      /\ Dict.keys (Dict.set k v d) = (Dict.keys d ++ [k])%list).
Proof.
  destruct (Dict.get k d) eqn:E.
  - left. apply set_present. congruence.
  - right. split; [now apply get_none_iff|].
    rewrite set_fresh by assumption. now rewrite keys_app.
Qed.

End Facts.
End DictFacts.

(** ** Loading and saving the store *)

Module StoreFacts.
Import PyStr PyStrFacts NormalizeFacts DictFacts.

Lemma normal_key_normalize (s : string) :
  is_empty (normalize_topic s) = false -> normal_key (normalize_topic s).
Proof. intros H. split; [apply normalize_topic_idem | exact H]. Qed.

Lemma store_ok_nil : store_ok [].
Proof. split; constructor. Qed.

Lemma store_ok_set (k : string) (v : Z) (d : dict Z) :
  normal_key k -> store_ok d -> store_ok (Dict.set k v d).
Proof.
  intros Hk [Hnd Hall]. unfold store_ok.
  destruct (keys_set_cases k v d) as [-> | [Hnin ->]]; [now split|].
  split.
  - apply NoDup_app; [assumption | |].
    + constructor; [intros [] | constructor].
    + intros x Hx [<- | []]. contradiction.
  - apply Forall_app. split; [assumption|].
    constructor; [exact Hk | constructor].
Qed.

Lemma store_ok_load_step (acc : dict Z) (item : string * json) :
  store_ok acc -> store_ok (load_step acc item).
Proof.
  intros Hacc. destruct item as [key value]. unfold load_step.
  destruct (is_empty (normalize_topic key)) eqn:He; [assumption|].
  destruct (PyInt.of_json value); [|assumption].
  apply store_ok_set; [now apply normal_key_normalize | assumption].
Qed.

Lemma store_ok_fold (items : list (string * json)) (acc : dict Z) :
  store_ok acc -> store_ok (fold_left load_step items acc).
Proof.
  revert acc. induction items as [|it items IH]; intros acc Hacc; simpl.
  - assumption.
  - apply IH. now apply store_ok_load_step.
Qed.

(** Whatever [load_progress] returns has unique, normal, non-empty keys. *)
Lemma load_payload_ok (p : payload) (d : dict Z) :
  load_payload p = Ok d -> store_ok d.
Proof.
  unfold load_payload. destruct (json_items _) as [items|e]; [|discriminate].
  intros [= <-]. apply store_ok_fold, store_ok_nil.
Qed.

(** An unreadable or non-JSON file loads as the empty map. *)
Lemma load_payload_unreadable : load_payload Unreadable = Ok [].
Proof. reflexivity. Qed.

Lemma fold_dumps (d acc : dict Z) :
  store_ok (acc ++ d)%list ->
  fold_left load_step (map (fun kv => (fst kv, JInt (snd kv))) d) acc
  = (acc ++ d)%list.
Proof.
  revert acc. induction d as [|[k v] d IH]; intros acc Hok; simpl.
  - now rewrite app_nil_r.
  - assert (Hok' := Hok). destruct Hok' as [Hnd Hall].
    rewrite keys_app in Hnd, Hall. simpl in Hnd, Hall.
    apply Forall_app in Hall as [_ Hall].
    apply Forall_inv in Hall. destruct Hall as [Hnorm Hne].
    apply NoDup_remove_2 in Hnd.
    assert (Hfresh : Dict.get k acc = None).
    { apply get_none_iff. intros Hin. apply Hnd, in_or_app. now left. }
    rewrite Hnorm, Hne. unfold Dict.get_default. rewrite Hfresh.
    rewrite set_fresh by assumption. simpl.
    rewrite IH; rewrite <- app_assoc; [reflexivity | exact Hok].
Qed.

(** Reading back what [save_progress] wrote gives the map that was saved. *)
Lemma load_dumps (d : dict Z) :
  store_ok d -> load_payload (Parsed (dumps d)) = Ok d.
Proof.
  intros Hok. unfold load_payload, dumps. simpl.
  now rewrite (fold_dumps d []).
Qed.

Lemma load_step_count (k : string) (item : string * json) (acc : dict Z) :
  Dict.get_default k 0%Z (load_step acc item)
  = (Dict.get_default k 0 acc + contribution k item)%Z.
Proof.
  destruct item as [key value]. unfold load_step, contribution. simpl.
  destruct (String.eqb (normalize_topic key) k) eqn:E; simpl.
  - apply String.eqb_eq in E. subst k.
    destruct (is_empty (normalize_topic key)); simpl; [lia|].
    destruct (PyInt.of_json value); [|lia].
    unfold Dict.get_default at 1. now rewrite get_set_same.
  - apply String.eqb_neq in E.
    destruct (is_empty (normalize_topic key)); [lia|].
    destruct (PyInt.of_json value); [|lia].
    unfold Dict.get_default at 1. rewrite get_set_other by congruence.
    unfold Dict.get_default. lia.
Qed.

(** Each key's count is the sum of what the raw entries add to it. *)
Lemma fold_load_counts (k : string) (items : list (string * json)) (acc : dict Z) :
  Dict.get_default k 0%Z (fold_left load_step items acc)
  = (Dict.get_default k 0 acc + sum_Z (map (contribution k) items))%Z.
Proof.
  revert acc. induction items as [|item items IH]; intros acc.
  - simpl. lia.
  - change (fold_left load_step (item :: items) acc)
      with (fold_left load_step items (load_step acc item)).
    rewrite IH, load_step_count. simpl. lia.
Qed.

Lemma load_payload_counts (items : list (string * json)) (k : string) :
  exists d, load_payload (Parsed (JObj items)) = Ok d
            /\ Dict.get_default k 0%Z d = sum_Z (map (contribution k) items).
Proof.
  eexists. split; [reflexivity|]. now rewrite fold_load_counts.
Qed.

End StoreFacts.

(** ** The tracker *)

Module TrackerFacts.
Import PyStr StoreFacts DictFacts.

Lemma store_ok_bumped (k : string) (m : dict Z) :
  normal_key k -> store_ok m -> store_ok (bumped k m).
Proof. intros Hk Hm. now apply store_ok_set. Qed.

(** One call of [update_progress] on a key that is not empty: the store is
    read once, then written once with the bumped map. *)
Lemma update_progress_run (topic : string) (w : World) (m : dict Z) :
  is_empty (normalize_topic topic) = false ->
  load_payload (progress_file w) = Ok m ->
  update_progress topic w
  = Ok (tt, {| progress_file := Parsed (dumps (bumped (normalize_topic topic) m));
               notes_dir := notes_dir w;
               now := now w;
               io_log := (io_log w ++ [ReadProgress; WriteProgress])%list |}).
Proof.
  intros Hne Hload. unfold update_progress, bind, load_progress, save_progress.
  rewrite Hne, Hload. unfold log_event, bumped. simpl.
  now rewrite <- app_assoc.
Qed.

Lemma update_progress_reload (topic : string) (w : World) (m : dict Z) :
  is_empty (normalize_topic topic) = false ->
  load_payload (progress_file w) = Ok m ->
  exists w',
    update_progress topic w = Ok (tt, w')
    /\ load_payload (progress_file w') = Ok (bumped (normalize_topic topic) m)
    /\ notes_dir w' = notes_dir w /\ now w' = now w
    /\ io_log w' = (io_log w ++ [ReadProgress; WriteProgress])%list.
Proof.
  intros Hne Hload. eexists.
  split; [exact (update_progress_run topic w m Hne Hload)|].
  simpl. repeat split. apply load_dumps, store_ok_bumped.
  - now apply normal_key_normalize.
  - now apply load_payload_ok with (progress_file w).
Qed.

Lemma stored_count_bumped (k : string) (m : dict Z) :
  Dict.get_default k 0%Z (bumped k m) = (Dict.get_default k 0 m + 1)%Z.
Proof. unfold bumped, Dict.get_default at 1. now rewrite get_set_same. Qed.

Lemma update_progress_noop (topic : string) (w : World) :
  is_empty (normalize_topic topic) = true ->
  update_progress topic w = Ok (tt, w).
Proof. intros He. unfold update_progress. now rewrite He. Qed.

Lemma update_each_counts (topics : list string) (k : string) :
  is_empty k = false ->
  (forall t, In t topics -> normalize_topic t = k) ->
  forall (w : World) (c : Z),
    stored_count k w = Ok c ->
    exists w',
      update_each topics w = Ok (tt, w')
      /\ stored_count k w' = Ok (c + Z.of_nat (List.length topics))%Z.
Proof.
  intros Hk. induction topics as [|t topics IH]; intros Hall w c Hc.
  - exists w. split; [reflexivity|]. simpl. now rewrite Z.add_0_r.
  - assert (Ht : normalize_topic t = k) by (apply Hall; now left).
    unfold stored_count in Hc.
    destruct (load_payload (progress_file w)) as [m|] eqn:Hload; [|discriminate].
    injection Hc as <-.
    destruct (update_progress_reload t w m) as (w1 & Hrun & Hre & _);
      [now rewrite Ht | assumption |].
    rewrite Ht in Hre.
    destruct (IH (fun x Hx => Hall x (or_intror Hx)) w1
                (Dict.get_default k 0 m + 1)%Z) as (w' & Hrest & Hcount).
    { unfold stored_count. now rewrite Hre, stored_count_bumped. }
    exists w'. split.
    + simpl. unfold bind. now rewrite Hrun.
    + rewrite Hcount. f_equal. simpl List.length. lia.
Qed.

End TrackerFacts.

(** C3. [get_difficulty] normalizes the topic, reads the stored count with
    default 0 and answers "easy" exactly above 5, "medium" exactly from 3 to
    5, "hard" otherwise; the store is left as it was. *)
Theorem get_difficulty_tiers (topic : string) (w : World) (m : dict Z) :
  load_payload (progress_file w) = Ok m ->
  let count := Dict.get_default (normalize_topic topic) 0%Z m in
  exists tier w',
    get_difficulty topic w = Ok (tier, w')
    /\ progress_file w' = progress_file w
    /\ (tier = "easy" <-> (5 < count)%Z)
    /\ (tier = "medium" <-> (2 < count <= 5)%Z)
    /\ (tier = "hard" <-> (count <= 2)%Z).
Proof.
  intros Hload count. unfold get_difficulty, bind, load_progress.
  rewrite Hload. fold count.
  destruct (5 <? count)%Z eqn:H5; [|destruct (2 <? count)%Z eqn:H2];
    rewrite ?Z.ltb_lt, ?Z.ltb_ge in *;
    eexists; eexists; (split; [reflexivity|]); (split; [reflexivity|]);
    repeat split; intros; try lia; try discriminate; try reflexivity.
Qed.

(** Counts 0, 1, 2 are "hard", 3, 4, 5 "medium", 6 and 7 "easy". *)
Lemma get_difficulty_tiers_witness :
  map (fun c =>
         match get_difficulty "Algebra"
                 {| progress_file := Parsed (JObj [("algebra", JInt c)]);
                    notes_dir := []; now := now startup_world; io_log := [] |}
         with
         | Ok (tier, _) => tier
         | Raise _ => "raised"
         end) [0; 1; 2; 3; 4; 5; 6; 7]%Z
  = ["hard"; "hard"; "hard"; "medium"; "medium"; "medium"; "easy"; "easy"]
  /\ exists tier w',
      get_difficulty " Linear  Algebra "
        {| progress_file := Parsed (JObj [("linear algebra", JInt 3)]);
           notes_dir := []; now := now startup_world; io_log := [] |}
      = Ok (tier, w')
      /\ (tier = "medium" <-> (2 < 3 <= 5)%Z).
Proof.
  split; [reflexivity|].
  destruct (get_difficulty_tiers " Linear  Algebra "
              {| progress_file := Parsed (JObj [("linear algebra", JInt 3)]);
                 notes_dir := []; now := now startup_world; io_log := [] |}
              [("linear algebra", 3%Z)] eq_refl)
    as (tier & w' & Hrun & _ & _ & Hmed & _).
  exists tier, w'. split; [exact Hrun | exact Hmed].
Defined.

(** C4. [update_progress] does nothing at all, neither read nor write, when
    the topic normalizes to the empty string; otherwise it reads the store
    once, writes back the whole map with that key's count one higher, and a
    reload sees it; so [N] calls on topics with one normal form add [N]. *)
Theorem update_progress_counts (topic : string) (w : World) :
  let k := normalize_topic topic in
  (PyStr.is_empty k = true -> update_progress topic w = Ok (tt, w))
  /\ (PyStr.is_empty k = false ->
      forall m, load_payload (progress_file w) = Ok m ->
      exists w',
        update_progress topic w = Ok (tt, w')
        /\ progress_file w' = Parsed (dumps (bumped k m))
        /\ stored_count k w' = Ok (Dict.get_default k 0 m + 1)%Z
        /\ io_log w' = (io_log w ++ [ReadProgress; WriteProgress])%list
        /\ notes_dir w' = notes_dir w)
  /\ (PyStr.is_empty k = false ->
      forall topics c,
        (forall t, In t topics -> normalize_topic t = k) ->
        stored_count k w = Ok c ->
        exists w',
          update_each topics w = Ok (tt, w')
          /\ stored_count k w' = Ok (c + Z.of_nat (List.length topics))%Z).
Proof.
  intros k. split; [|split].
  - apply TrackerFacts.update_progress_noop.
  - intros Hne m Hload.
    destruct (TrackerFacts.update_progress_reload topic w m Hne Hload)
      as (w' & Hrun & Hre & Hnotes & _ & Hlog).
    exists w'. repeat split; try assumption.
    + rewrite (TrackerFacts.update_progress_run topic w m Hne Hload) in Hrun.
      injection Hrun as <-. reflexivity.
    + unfold stored_count. rewrite Hre.
      now rewrite TrackerFacts.stored_count_bumped.
  - intros Hne topics c Hall Hc.
    now apply TrackerFacts.update_each_counts.
Qed.

(** Three spellings of one topic on a new installation: the count is 3. *)
Lemma update_progress_counts_witness :
  update_progress "   " startup_world = Ok (tt, startup_world)
  /\ exists w',
      update_each ["Linear Algebra"; " linear  algebra "; "LINEAR ALGEBRA"]
        startup_world = Ok (tt, w')
      /\ stored_count "linear algebra" w' = Ok 3%Z.
Proof.
  split.
  - exact (proj1 (update_progress_counts "   " startup_world) eq_refl).
  - apply (proj2 (proj2 (update_progress_counts "Linear Algebra" startup_world))
             eq_refl
             ["Linear Algebra"; " linear  algebra "; "LINEAR ALGEBRA"] 0%Z).
    + intros t [<- | [<- | [<- | []]]]; reflexivity.
    + reflexivity.
Defined.

(** C10. [update_progress] on a topic with a non-empty normal form leaves
    every other key of the persisted map as the load before the call saw
    it: present with the same count, or absent. *)
Theorem update_progress_frame (topic k : string) (w : World) (m : dict Z) :
  PyStr.is_empty (normalize_topic topic) = false ->
  load_payload (progress_file w) = Ok m ->
  k <> normalize_topic topic ->
  exists w' m',
    update_progress topic w = Ok (tt, w')
    /\ load_payload (progress_file w') = Ok m'
    /\ Dict.get k m' = Dict.get k m.
Proof.
  intros Hne Hload Hk.
  destruct (TrackerFacts.update_progress_reload topic w m Hne Hload)
    as (w' & Hrun & Hre & _).
  exists w', (bumped (normalize_topic topic) m).
  repeat split; try assumption.
  unfold bumped. now apply DictFacts.get_set_other.
Qed.

Lemma update_progress_frame_witness :
  exists w' m',
    update_progress "Algebra"
      {| progress_file := Parsed (JObj [("algebra", JInt 2); ("calculus", JInt 7)]);
         notes_dir := []; now := now startup_world; io_log := [] |}
    = Ok (tt, w')
    /\ load_payload (progress_file w') = Ok m'
    /\ Dict.get "calculus" m' = Some 7%Z.
Proof.
  exact (update_progress_frame "Algebra" "calculus"
           {| progress_file := Parsed (JObj [("algebra", JInt 2); ("calculus", JInt 7)]);
              notes_dir := []; now := now startup_world; io_log := [] |}
           [("algebra", 2%Z); ("calculus", 7%Z)]
           eq_refl eq_refl ltac:(discriminate)).
Defined.

(** C5, at a payload the code does not survive: a progress file holding a
    JSON array parses, so the guard around [json.loads] lets it through, and
    [raw.items()] raises outside any [try]. *)
Theorem load_progress_raises_on_json_array :
  load_progress
    {| progress_file := Parsed (JArr []); notes_dir := [];
       now := now startup_world; io_log := [] |}
  = Raise AttributeError
  /\ (forall w v, progress_file w = Parsed v ->
        (forall items, v <> JObj items) -> load_progress w = Raise AttributeError).
Proof.
  split; [reflexivity|].
  intros w v Hw Hv. unfold load_progress, load_payload. rewrite Hw.
  destruct v; try reflexivity. now destruct (Hv items).
Qed.

(** C2, as the code has it, for an operation result that is a text. A
    failure text comes back unchanged with no note and the world as the
    operation left it. Any other text: when the topic's normal form is
    empty the progress file is left as it is and the text is saved in the
    note file named by the clock, created or overwritten; when the normal
    form is not empty and the store loads, the persisted count of the topic
    is raised by exactly 1 and the text is saved in that note file. *)
Theorem run_and_track_effects
    (topic : string) (fn : M pyval) (w w1 : World) (result : string) :
  fn w = Ok (PyText result, w1) ->
  let k := normalize_topic topic in
  let filename := note_filename (now w1) in
  (is_api_error_text result = true ->
   run_and_track topic fn w = Ok ((result, None), w1))
  /\ (is_api_error_text result = false -> PyStr.is_empty k = true ->
      exists w2,
        run_and_track topic fn w = Ok ((result, Some filename), w2)
        /\ progress_file w2 = progress_file w1
        /\ note_saved filename result (notes_dir w1) (notes_dir w2))
  /\ (is_api_error_text result = false -> PyStr.is_empty k = false ->
      forall m, load_payload (progress_file w1) = Ok m ->
      exists w2,
        run_and_track topic fn w = Ok ((result, Some filename), w2)
        /\ stored_count k w2 = Ok (Dict.get_default k 0 m + 1)%Z
        /\ note_saved filename result (notes_dir w1) (notes_dir w2)).
Proof.
  intros Hfn k filename.
  assert (Hnote : forall before,
             note_saved filename result before (Dict.set filename result before)).
  { intros before. split; [apply DictFacts.get_set_same|]. split.
    - intros f Hf. now apply DictFacts.get_set_other.
    - destruct (Dict.mem filename before) eqn:E.
      + now apply DictFacts.length_set_present.
      + now apply DictFacts.length_set_fresh. }
  split; [|split].
  - intros Herr. unfold run_and_track, bind. now rewrite Hfn, Herr.
  - intros Hok He. unfold run_and_track, bind. rewrite Hfn, Hok.
    rewrite (TrackerFacts.update_progress_noop topic w1 He).
    eexists. split; [reflexivity|]. split; [reflexivity|]. apply Hnote.
  - intros Hok Hne m Hload. unfold run_and_track, bind. rewrite Hfn, Hok.
    destruct (TrackerFacts.update_progress_reload topic w1 m Hne Hload)
      as (w' & Hrun & Hre & Hnotes & Hnow & _).
    rewrite Hrun. unfold save_note, ret. rewrite Hnow, Hnotes.
    eexists. split; [reflexivity|]. split.
    + unfold stored_count. simpl. rewrite Hre.
      now rewrite TrackerFacts.stored_count_bumped.
    + apply Hnote.
Qed.

Lemma run_and_track_effects_witness :
  run_and_track "Algebra" (ret (PyText "Gemini API Error: 429 quota"))
    startup_world
  = Ok (("Gemini API Error: 429 quota", None), startup_world)
  /\ exists w2,
      run_and_track " Linear  Algebra " (ret (PyText "Vectors add."))
        startup_world
      = Ok (("Vectors add.", Some "20260307_090500.txt"), w2)
      /\ stored_count "linear algebra" w2 = Ok 1%Z
      /\ note_saved "20260307_090500.txt" "Vectors add." [] (notes_dir w2).
Proof.
  split.
  - exact (proj1 (run_and_track_effects "Algebra"
                    (ret (PyText "Gemini API Error: 429 quota"))
                    startup_world startup_world _ eq_refl) eq_refl).
  - exact (proj2 (proj2 (run_and_track_effects " Linear  Algebra "
                           (ret (PyText "Vectors add."))
                           startup_world startup_world _ eq_refl))
             eq_refl eq_refl [] eq_refl).
Defined.

(** C2 as worded fails on a topic of blanks: the answer is a success, yet
    the count of the topic is not raised. *)
Lemma run_and_track_blank_topic_not_counted :
  ~ tracks_as_specified "   " (ret (PyText "Vectors add.")) startup_world.
Proof.
  intros H.
  specialize (H (PyText "Vectors add.") startup_world 0%Z eq_refl eq_refl).
  simpl in H. destruct H as (note & w2 & Hrun & Hcount & _).
  vm_compute in Hrun. injection Hrun as _ <-.
  vm_compute in Hcount. discriminate.
Qed.

(** A second answer within the same second replaces the note of the first:
    no file is added. *)
Lemma run_and_track_same_second_overwrites :
  ~ tracks_as_specified "Algebra" (ret (PyText "Second answer."))
      {| progress_file := Parsed (JObj []);
         notes_dir := [("20260307_090500.txt", "First answer.")];
         now := now startup_world; io_log := [] |}.
Proof.
  intros H.
  specialize (H (PyText "Second answer.") _ 0%Z eq_refl eq_refl).
  simpl in H. destruct H as (note & w2 & Hrun & _ & Hlen).
  vm_compute in Hrun. injection Hrun as _ <-.
  vm_compute in Hlen. discriminate.
Qed.

(** Outside the texts and the stores that load, [run_and_track] raises
    before it saves anything: on an operation result of [None], and on a
    text to be counted when the progress file holds JSON other than an
    object. *)
Lemma run_and_track_raises (topic : string) (fn : M pyval) (w w1 : World) :
  (fn w = Ok (PyNone, w1) -> run_and_track topic fn w = Raise AttributeError)
  /\ (forall result v,
        fn w = Ok (PyText result, w1) ->
        is_api_error_text result = false ->
        PyStr.is_empty (normalize_topic topic) = false ->
        progress_file w1 = Parsed v -> (forall items, v <> JObj items) ->
        run_and_track topic fn w = Raise AttributeError).
Proof.
  split.
  - intros Hfn. unfold run_and_track, bind. now rewrite Hfn.
  - intros result v Hfn Hok Hne Hv Hobj.
    unfold run_and_track, bind. rewrite Hfn, Hok.
    unfold update_progress, bind, load_progress, load_payload.
    rewrite Hne, Hv. destruct v; try reflexivity. now destruct (Hobj items).
Qed.

(** ** The dispatcher *)

Lemma deep_text_first_part (response : Response) :
  match deep_text response with
  | Ok v => v
  | Raise _ => PyText (str_of response)
  end
  = match first_part response with
    | Some part => part_text part
    | None => PyText (str_of response)
    end.
Proof.
  unfold deep_text, first_part, first_item.
  destruct (candidates response) as [[|cand cs]|]; try reflexivity.
  destruct (content cand) as [c|]; try reflexivity.
  destruct (parts c) as [[|part ps]|]; reflexivity.
Qed.

(** C9, at a response the code does not turn into a text. The nested path
    of [textless_response] resolves, so no exception sends [_extract_text]
    to [str(response)], and it returns the part's [text], which is [None],
    where the cascade of the specification gives the string form of the
    response. On every response the code either returns the text the
    cascade gives or returns [None]. *)
Theorem extract_text_None_on_textless_part :
  _extract_text textless_response = PyNone
  /\ extraction_as_specified textless_response = "<response>"
  /\ forall response,
      _extract_text response = PyText (extraction_as_specified response)
      \/ _extract_text response = PyNone.
Proof.
  split; [reflexivity|]. split; [reflexivity|].
  intros response. unfold _extract_text, extraction_as_specified, direct_text.
  rewrite deep_text_first_part.
  destruct (text response) as [[|[|c s]]|]; cbn;
    try (now left);
    (destruct (first_part response) as [[[|s']]|]; [now right | now left | now left]).
Qed.

Module DispatcherFacts.

Lemma generate_from_skip (cl : Client) (contents : Contents)
    (pre rest : list string) :
  all_not_found cl contents pre ->
  forall last,
    generate_from cl contents last (pre ++ rest)%list
    = (fst (generate_from cl contents
              (last_error_after cl contents last pre) rest),
       (pre ++ snd (generate_from cl contents
                      (last_error_after cl contents last pre) rest))%list).
Proof.
  induction 1 as [|m pre (e & Hm & Hnf) _ IH]; intros last.
  - simpl. now destruct (generate_from cl contents last rest).
  - simpl. rewrite Hm, Hnf, IH. reflexivity.
Qed.

Lemma last_error_after_last (cl : Client) (contents : Contents)
    (pre : list string) (m e last : string) :
  cl m contents = Fails e ->
  last_error_after cl contents last (pre ++ [m])%list = m ++ ": " ++ e.
Proof.
  intros Hm. unfold last_error_after. rewrite fold_left_app. simpl.
  now rewrite Hm.
Qed.

Lemma is_api_error_text_failure (detail : string) :
  is_api_error_text ("Gemini API Error: " ++ detail) = true.
Proof. reflexivity. Qed.

Lemma is_api_error_text_exhausted (detail : string) :
  is_api_error_text
    ("Gemini API Error: all candidate models failed. Last error: " ++ detail)
  = true.
Proof. reflexivity. Qed.

End DispatcherFacts.

(** C1. [generate] goes through the candidates in order. Past candidates
    that each failed with "not found": the first success returns its
    extracted text and calls no one after it; the first failure of another
    kind returns "Gemini API Error: " followed by the raw error and calls no
    one after it. When every candidate fails with "not found", all are
    called and the result is the exhaustion message ending in the last
    error seen, the last model's name and error. Each failure text starts
    with the sentinel. *)
Theorem generate_fallback (self : SomaTutor) (contents : Contents) :
  let cl := client self in
  let models := model_candidates self in
  (forall pre m post response,
      models = (pre ++ m :: post)%list ->
      all_not_found cl contents pre ->
      cl m contents = Returns response ->
      generate self contents = (_extract_text response, (pre ++ [m])%list))
  /\ (forall pre m post e,
        models = (pre ++ m :: post)%list ->
        all_not_found cl contents pre ->
        cl m contents = Fails e ->
        _is_not_found e = false ->
        generate self contents
        = (PyText ("Gemini API Error: " ++ e), (pre ++ [m])%list)
        /\ is_api_error_text ("Gemini API Error: " ++ e) = true)
  /\ (all_not_found cl contents models ->
      let last_error := last_error_after cl contents "" models in
      generate self contents
      = (PyText ("Gemini API Error: all candidate models failed. Last error: "
                 ++ last_error), models)
      /\ is_api_error_text
           ("Gemini API Error: all candidate models failed. Last error: "
            ++ last_error) = true
      /\ (models = [] -> last_error = "")
      /\ (forall pre m e,
            models = (pre ++ [m])%list -> cl m contents = Fails e ->
            last_error = m ++ ": " ++ e)).
Proof.
  intros cl models. unfold generate. fold cl models. split; [|split].
  - intros pre m post response -> Hpre Hm.
    rewrite (DispatcherFacts.generate_from_skip cl contents pre (m :: post) Hpre).
    simpl. now rewrite Hm.
  - intros pre m post e -> Hpre Hm Hnf.
    rewrite (DispatcherFacts.generate_from_skip cl contents pre (m :: post) Hpre).
    simpl. rewrite Hm, Hnf. split; reflexivity.
  - intros Hall.
    split; [|split; [|split]].
    + rewrite <- (app_nil_r models) at 1.
      rewrite (DispatcherFacts.generate_from_skip cl contents models [] Hall).
      simpl. now rewrite app_nil_r.
    + reflexivity.
    + now intros ->.
    + intros pre m e Hmodels Hm. rewrite Hmodels.
      now apply DispatcherFacts.last_error_after_last.
Qed.

(** Model "a" is unknown, "b" answers and "c" times out. *)
Lemma generate_fallback_witness :
  generate {| client := sample_client; model_candidates := ["a"; "b"; "c"] |}
    (TextContents "Why?")
  = (PyText "OK", ["a"; "b"])
  /\ generate {| client := sample_client; model_candidates := ["a"; "c"; "b"] |}
       (TextContents "Why?")
     = (PyText "Gemini API Error: Deadline exceeded: timeout", ["a"; "c"])
  /\ generate {| client := sample_client; model_candidates := ["a"; "a"] |}
       (TextContents "Why?")
     = (PyText "Gemini API Error: all candidate models failed. Last error: a: 404 NOT_FOUND: models/a",
        ["a"; "a"]).
Proof.
  assert (Ha : all_not_found sample_client (TextContents "Why?") ["a"]).
  { constructor; [|constructor]. eexists. split; reflexivity. }
  split; [|split].
  - exact (proj1 (generate_fallback
                    {| client := sample_client; model_candidates := ["a"; "b"; "c"] |}
                    (TextContents "Why?"))
             ["a"] "b" ["c"] _ eq_refl Ha eq_refl).
  - exact (proj1 (proj1 (proj2 (generate_fallback
                    {| client := sample_client; model_candidates := ["a"; "c"; "b"] |}
                    (TextContents "Why?")))
             ["a"] "c" ["b"] _ eq_refl Ha eq_refl eq_refl)).
  - refine (proj1 (proj2 (proj2 (generate_fallback
                    {| client := sample_client; model_candidates := ["a"; "a"] |}
                    (TextContents "Why?"))) _)).
    constructor; [eexists; split; reflexivity|]. exact Ha.
Defined.

(** ** Error classification *)

Module ClassifyFacts.

Lemma classify_closed (err : string) :
  In (_classify_error err)
     ["NOT_FOUND"; "QUOTA_EXHAUSTED"; "AUTH"; "PERMISSION"; "TIMEOUT"; "ERROR"].
Proof.
  unfold _classify_error.
  repeat match goal with
         | |- context [if ?b then _ else _] => destruct b
         end; simpl; tauto.
Qed.

(** Off the "invalid api key" pattern the code and the wording agree. *)
Lemma classify_as_specified_agrees (err : string) :
  has "invalid api key" err = false ->
  _classify_error err = classify_as_specified err.
Proof.
  unfold has, _classify_error, classify_as_specified, _is_not_found.
  intros ->. rewrite orb_false_r.
  destruct (PyStr.contains "timed out" (PyStr.lower err)),
           (PyStr.contains "timeout" (PyStr.lower err));
    rewrite ?orb_true_r, ?orb_false_r; reflexivity.
Qed.

End ClassifyFacts.

(** C6, as the code has it. The classification returns one of the six tags
    and tries its rules in order on the lower-cased message, first match
    wins: "404" with "not_found" or "not found" is NOT_FOUND; "429" or
    "resource_exhausted" is QUOTA_EXHAUSTED; "401", "unauthenticated" or
    "invalid api key" is AUTH; "403" or "permission_denied" is PERMISSION;
    "deadline_exceeded", "timed out" or "timeout" is TIMEOUT; anything else
    is ERROR. *)
Theorem classify_error_rules (err : string) :
  let nf := has "404" err && (has "not_found" err || has "not found" err) in
  let quota := has "429" err || has "resource_exhausted" err in
  let auth := has "401" err || has "unauthenticated" err
              || has "invalid api key" err in
  let perm := has "403" err || has "permission_denied" err in
  let tmo := has "deadline_exceeded" err || has "timed out" err
             || has "timeout" err in
  In (_classify_error err)
     ["NOT_FOUND"; "QUOTA_EXHAUSTED"; "AUTH"; "PERMISSION"; "TIMEOUT"; "ERROR"]
  /\ (_classify_error err = "NOT_FOUND" <-> nf = true)
  /\ (_classify_error err = "QUOTA_EXHAUSTED" <-> nf = false /\ quota = true)
  /\ (_classify_error err = "AUTH"
      <-> nf = false /\ quota = false /\ auth = true)
  /\ (_classify_error err = "PERMISSION"
      <-> nf = false /\ quota = false /\ auth = false /\ perm = true)
  /\ (_classify_error err = "TIMEOUT"
      <-> nf = false /\ quota = false /\ auth = false /\ perm = false
          /\ tmo = true)
  /\ (_classify_error err = "ERROR"
      <-> nf = false /\ quota = false /\ auth = false /\ perm = false
          /\ tmo = false).
Proof.
  intros nf quota auth perm tmo.
  split; [apply ClassifyFacts.classify_closed|].
  unfold _classify_error, _is_not_found.
  change (PyStr.contains "404" (PyStr.lower err)
          && (PyStr.contains "not_found" (PyStr.lower err)
              || PyStr.contains "not found" (PyStr.lower err))) with nf.
  change (PyStr.contains "429" (PyStr.lower err)
          || PyStr.contains "resource_exhausted" (PyStr.lower err)) with quota.
  change (PyStr.contains "401" (PyStr.lower err)
          || PyStr.contains "unauthenticated" (PyStr.lower err)
          || PyStr.contains "invalid api key" (PyStr.lower err)) with auth.
  change (PyStr.contains "403" (PyStr.lower err)
          || PyStr.contains "permission_denied" (PyStr.lower err)) with perm.
  change (PyStr.contains "deadline_exceeded" (PyStr.lower err)
          || PyStr.contains "timed out" (PyStr.lower err)
          || PyStr.contains "timeout" (PyStr.lower err)) with tmo.
  destruct nf, quota, auth, perm, tmo;
    repeat split; intros; try discriminate; try reflexivity;
    repeat match goal with H : _ /\ _ |- _ => destruct H end;
    try discriminate.
Qed.

(** C6 as worded fails on "Invalid API key": none of the listed substrings
    occurs in it, and it is classified AUTH, not ERROR. *)
Lemma classify_invalid_api_key_is_auth : ~ unmatched_is_error.
Proof.
  intros H. specialize (H "Invalid API key").
  assert (Hnone : forall p, In p specified_patterns ->
                            PyStr.contains p (PyStr.lower "Invalid API key") = false).
  { intros p Hp. unfold specified_patterns in Hp. simpl in Hp.
    repeat (destruct Hp as [<- | Hp]; [reflexivity|]). destruct Hp. }
  specialize (H Hnone). vm_compute in H. discriminate.
Qed.

(** ** The access check *)

Module AccessFacts.
Import DictFacts.

Lemma probe_tag_closed (self : SomaTutor) (m : string) :
  In (fst (probe self m)) status_keys.
Proof.
  assert (Hsub : forall err, In (_classify_error err) status_keys).
  { intros err. right. apply ClassifyFacts.classify_closed. }
  unfold probe, probe_failed.
  destruct (client self m _) as [response | e]; [|apply Hsub].
  destruct (_extract_text response); [apply Hsub | now left].
Qed.

Lemma initial_counts (k : string) :
  Dict.get_default k 0 initial_statuses = 0.
Proof.
  unfold Dict.get_default, initial_statuses. simpl.
  repeat match goal with
         | |- context [if ?b then _ else _] => destruct b
         end; reflexivity.
Qed.

Lemma subscript_count (k : string) (st : dict nat) :
  Dict.keys st = status_keys -> In k status_keys ->
  subscript k st = Ok (Dict.get_default k 0 st).
Proof.
  intros Hkeys Hk. unfold subscript, Dict.get_default.
  destruct (Dict.get k st) eqn:E; [reflexivity|].
  apply get_none_iff in E. now rewrite Hkeys in E.
Qed.

Lemma count_tag_cons (k t : string) (ts : list string) :
  count_tag k (t :: ts)
  = (if String.eqb k t then 1 else 0) + count_tag k ts.
Proof.
  unfold count_tag. simpl. destruct (string_dec t k) as [-> | Hne].
  - now rewrite String.eqb_refl.
  - assert (E : String.eqb k t = false) by (apply String.eqb_neq; congruence).
    now rewrite E.
Qed.

(** The probe loop never meets a missing key, and it counts each tag. *)
Lemma probe_all_counts (self : SomaTutor) (models : list string) :
  forall st lines,
    Dict.keys st = status_keys ->
    exists st' lines',
      probe_all self models st lines = Ok (st', lines')
      /\ Dict.keys st' = status_keys
      /\ forall k, Dict.get_default k 0 st'
                   = Dict.get_default k 0 st
                     + count_tag k (map (fun m => fst (probe self m)) models).
Proof.
  induction models as [|m models IH]; intros st lines Hkeys.
  - exists st, lines. repeat split; [assumption|]. intros k. simpl.
    unfold count_tag. simpl. lia.
  - cbn [probe_all map]. assert (Hin := probe_tag_closed self m).
    destruct (probe self m) as [bucket line]. cbn [fst] in Hin |- *.
    unfold increment.
    destruct (Dict.get bucket st) as [n|] eqn:Hget.
    + destruct (IH (Dict.set bucket (n + 1) st) (lines ++ [line])%list)
        as (st' & lines' & Hrun & Hkeys' & Hcount).
      { rewrite set_present; [assumption | congruence]. }
      exists st', lines'. repeat split; try assumption.
      intros k. rewrite Hcount, count_tag_cons.
      unfold Dict.get_default at 1.
      destruct (String.eqb k bucket) eqn:E.
      * apply String.eqb_eq in E. subst k. rewrite get_set_same.
        unfold Dict.get_default. rewrite Hget. lia.
      * apply String.eqb_neq in E. rewrite get_set_other by assumption.
        unfold Dict.get_default. lia.
    + apply get_none_iff in Hget. now rewrite Hkeys in Hget.
Qed.

Lemma count_tag_pos (k : string) (ts : list string) :
  (0 <? count_tag k ts)%nat = true <-> In k ts.
Proof.
  unfold count_tag. rewrite Nat.ltb_lt. apply iff_sym, count_occ_In.
Qed.

Lemma count_tag_all (k : string) (ts : list string) :
  (count_tag k ts =? List.length ts)%nat = true <-> Forall (eq k) ts.
Proof.
  rewrite Nat.eqb_eq. unfold count_tag. split.
  - induction ts as [|t ts IH]; intros H; [constructor|].
    simpl in H. assert (Hle := count_occ_bound string_dec k ts).
    destruct (string_dec t k) as [-> | Hne]; [|lia].
    constructor; [reflexivity | apply IH; lia].
  - induction 1 as [|t ts <- _ IH]; [reflexivity|].
    simpl. destruct (string_dec k k); [now rewrite IH | contradiction].
Qed.

End AccessFacts.

(** C7. [check_access] always returns its report, and the last line of the
    report is chosen from the tags the models were counted under, in this
    order: any OK, reachable; else any AUTH, authentication; else any
    PERMISSION, permissions; else any QUOTA_EXHAUSTED, quota; else every
    configured model NOT_FOUND, model names; else the generic line. *)
Theorem check_access_verdict (self : SomaTutor) :
  let ts := tags self in
  exists lines line,
    check_access self = Ok (PyStr.join newline (lines ++ [line])%list)
    /\ (In "OK" ts ->
        line = "Result: Gemini is reachable. At least one configured model works.")
    /\ (~ In "OK" ts -> In "AUTH" ts ->
        line = "Blocked by authentication. Check GOOGLE_API_KEY.")
    /\ (~ In "OK" ts -> ~ In "AUTH" ts -> In "PERMISSION" ts ->
        line = "Blocked by project/API permissions for this key.")
    /\ (~ In "OK" ts -> ~ In "AUTH" ts -> ~ In "PERMISSION" ts ->
        In "QUOTA_EXHAUSTED" ts ->
        line = "Blocked by quota/billing limits on this project.")
    /\ (~ In "OK" ts -> ~ In "AUTH" ts -> ~ In "PERMISSION" ts ->
        ~ In "QUOTA_EXHAUSTED" ts -> Forall (eq "NOT_FOUND") ts ->
        line = "Blocked by model names. None of the configured models are available.")
    /\ (~ In "OK" ts -> ~ In "AUTH" ts -> ~ In "PERMISSION" ts ->
        ~ In "QUOTA_EXHAUSTED" ts -> ~ Forall (eq "NOT_FOUND") ts ->
        line = "Blocked by API/network/runtime errors. See per-model details above.").
Proof.
  intros ts. unfold check_access.
  destruct (AccessFacts.probe_all_counts self (model_candidates self)
              initial_statuses
              ["Gemini access check"; PyStr.repeat_char "-" 40] eq_refl)
    as (st & lines & Hrun & Hkeys & Hcount).
  rewrite Hrun. unfold verdict.
  assert (Hc : forall k, Dict.get_default k 0 st = count_tag k ts).
  { intros k. now rewrite Hcount, AccessFacts.initial_counts. }
  assert (Hlen : List.length (model_candidates self) = List.length ts).
  { unfold ts, tags. now rewrite length_map. }
  rewrite !AccessFacts.subscript_count by (try assumption; simpl; tauto).
  rewrite !Hc, Hlen.
  destruct (0 <? count_tag "OK" ts)%nat eqn:Hok;
    [|destruct (0 <? count_tag "AUTH" ts)%nat eqn:Hauth;
      [|destruct (0 <? count_tag "PERMISSION" ts)%nat eqn:Hperm;
        [|destruct (0 <? count_tag "QUOTA_EXHAUSTED" ts)%nat eqn:Hquota;
          [|destruct (count_tag "NOT_FOUND" ts =? List.length ts)%nat eqn:Hnf]]]];
    eexists; eexists; (split; [reflexivity|]);
    repeat match goal with
           | H : (0 <? count_tag _ _)%nat = true |- _ =>
               apply AccessFacts.count_tag_pos in H
           | H : (0 <? count_tag ?k ?l)%nat = false |- _ =>
               assert (~ In k l)
                 by (rewrite <- AccessFacts.count_tag_pos; congruence);
               clear H
           | H : (count_tag _ _ =? _)%nat = true |- _ =>
               apply AccessFacts.count_tag_all in H
           | H : (count_tag ?k ?l =? _)%nat = false |- _ =>
               assert (~ Forall (eq k) l)
                 by (rewrite <- AccessFacts.count_tag_all; congruence);
               clear H
           end;
    repeat split; intros; try reflexivity; contradiction.
Qed.

(** "a" is unknown and "c" times out: the generic line; with "b", which
    answers, the service is reachable; with "a" alone, the model names. *)
Lemma check_access_verdict_examples :
  check_access {| client := sample_client; model_candidates := ["a"; "c"] |}
  = Ok (PyStr.join newline
          ["Gemini access check";
           "----------------------------------------";
           "[NOT_FOUND] a -> 404 NOT_FOUND: models/a";
           "[TIMEOUT] c -> Deadline exceeded: timeout";
           "----------------------------------------";
           "Summary: NOT_FOUND=1, TIMEOUT=1";
           "Blocked by API/network/runtime errors. See per-model details above."])
  /\ check_access {| client := sample_client; model_candidates := ["a"; "b"] |}
     = Ok (PyStr.join newline
             ["Gemini access check";
              "----------------------------------------";
              "[NOT_FOUND] a -> 404 NOT_FOUND: models/a";
              "[OK] b -> OK";
              "----------------------------------------";
              "Summary: OK=1, NOT_FOUND=1";
              "Result: Gemini is reachable. At least one configured model works."])
  /\ check_access {| client := sample_client; model_candidates := ["a"] |}
     = Ok (PyStr.join newline
             ["Gemini access check";
              "----------------------------------------";
              "[NOT_FOUND] a -> 404 NOT_FOUND: models/a";
              "----------------------------------------";
              "Summary: NOT_FOUND=1";
              "Blocked by model names. None of the configured models are available."]).
Proof. repeat split; reflexivity. Qed.

(** * Properties of the rest of the module *)

(** ** Blank strings and normal forms *)

Module BlankFacts.
Import PyStr PyStrExt PyStrFacts NormalizeFacts.

Lemma blank_lower (s : string) : blank (lower s) = blank s.
Proof.
  induction s as [|c s IH]; simpl; [reflexivity|].
  now rewrite is_space_lower, IH.
Qed.

Lemma is_empty_lstrip (s : string) : is_empty (lstrip s) = blank s.
Proof.
  induction s as [|c s IH]; simpl; [reflexivity|].
  destruct (is_space c); [exact IH | reflexivity].
Qed.

Lemma blank_lstrip (s : string) : blank (lstrip s) = blank s.
Proof.
  induction s as [|c s IH]; simpl; [reflexivity|].
  destruct (is_space c) eqn:Hc; simpl; [exact IH | now rewrite Hc].
Qed.

Lemma is_empty_rstrip (s : string) : is_empty (rstrip s) = blank s.
Proof.
  induction s as [|c s IH]; simpl; [reflexivity|].
  rewrite IH. now destruct (is_space c), (blank s).
Qed.

Lemma is_empty_strip (s : string) : is_empty (strip s) = blank s.
Proof. unfold strip. now rewrite is_empty_rstrip, blank_lstrip. Qed.

Lemma split_from_nil (s cur : string) :
  match split_from cur s with [] => true | _ :: _ => false end
  = is_empty cur && blank s.
Proof.
  revert cur. induction s as [|c s IH]; intros cur; simpl.
  - unfold emit. destruct (is_empty cur); reflexivity.
  - destruct (is_space c); simpl.
    + unfold emit. destruct (is_empty cur); [apply (IH "") | reflexivity].
    + rewrite IH, is_empty_snoc. now destruct (is_empty cur).
Qed.

Lemma is_empty_join_words (ws : list string) :
  Forall word ws ->
  is_empty (join " " ws) = match ws with [] => true | _ :: _ => false end.
Proof.
  intros H. destruct H as [|w ws [Hne _] _]; [reflexivity|].
  now apply join_word_nonempty.
Qed.

(** [normalize_topic] gives the empty key exactly on blank topics. *)
Lemma is_empty_normalize (s : string) :
  is_empty (normalize_topic s) = blank s.
Proof.
  rewrite normalize_topic_alt, is_empty_join_words by apply split_words.
  unfold split. rewrite split_from_nil. simpl. apply blank_lower.
Qed.

Lemma normalize_topic_strip (s : string) :
  normalize_topic (strip s) = normalize_topic s.
Proof.
  rewrite !normalize_topic_alt. f_equal.
  rewrite !split_lower. f_equal. apply split_strip.
Qed.

Lemma rstrip_app (a b : string) :
  rstrip (a ++ b) = if is_empty (rstrip b) then rstrip a else a ++ rstrip b.
Proof.
  induction a as [|c a IH]; simpl.
  - now destruct (rstrip b).
  - rewrite IH. destruct (is_empty (rstrip b)) eqn:Hb; [reflexivity|].
    assert (Hne : is_empty (a ++ rstrip b) = false).
    { destruct a; simpl; [exact Hb | reflexivity]. }
    now rewrite Hne, andb_false_r.
Qed.

Lemma rstrip_space_free (w : string) : space_free w = true -> rstrip w = w.
Proof.
  induction w as [|c w IH]; simpl; [reflexivity|].
  intros H. apply andb_true_iff in H as [Hc Hw].
  apply negb_true_iff in Hc. now rewrite Hc, IH.
Qed.

Lemma rstrip_blank (s : string) : blank s = true -> rstrip s = "".
Proof.
  intros H. apply is_empty_true. now rewrite is_empty_rstrip.
Qed.

Lemma rstrip_join_words (ws : list string) :
  Forall word ws -> rstrip (join " " ws) = join " " ws.
Proof.
  unfold join. induction 1 as [|w ws [Hne Hsf] Hws IH]; [reflexivity|].
  destruct ws as [|w' ws].
  - simpl. now apply rstrip_space_free.
  - change (String.concat " " (w :: w' :: ws))
      with (w ++ String " " (String.concat " " (w' :: ws))).
    rewrite rstrip_app.
    assert (Hj : is_empty (String.concat " " (w' :: ws)) = false).
    { apply Forall_inv in Hws. destruct Hws as [Hne' _].
      now apply (join_word_nonempty w' ws). }
    cbn [rstrip]. rewrite IH, Hj. reflexivity.
Qed.

Lemma lstrip_join_words (ws : list string) :
  Forall word ws -> lstrip (join " " ws) = join " " ws.
Proof.
  unfold join. intros H. destruct H as [|w ws [Hne Hsf] _]; [reflexivity|].
  destruct w as [|c w]; [discriminate|].
  simpl in Hsf. apply andb_true_iff in Hsf as [Hc _].
  apply negb_true_iff in Hc.
  destruct ws; simpl; now rewrite Hc.
Qed.

Lemma normalize_topic_words (s : string) :
  exists ws, Forall word ws /\ map lower ws = ws
             /\ normalize_topic s = join " " ws.
Proof.
  exists (split (lower s)). split; [apply split_words|]. split.
  - rewrite split_lower. apply map_lower_idem.
  - apply normalize_topic_alt.
Qed.

End BlankFacts.

(** X1. A key made by [normalize_topic] is in normal form: normalizing,
    lower-casing or stripping it again changes nothing, and it is its own
    words joined by single spaces. *)
Theorem normalize_topic_normal_form (s : string) :
  let key := normalize_topic s in
  normalize_topic key = key
  /\ PyStr.lower key = key
  /\ PyStr.strip key = key
  /\ PyStr.join " " (PyStr.split key) = key.
Proof.
  intros key. unfold key.
  destruct (BlankFacts.normalize_topic_words s) as (ws & Hws & Hlow & ->).
  assert (Hsplit := NormalizeFacts.split_join ws Hws).
  assert (Hlower : PyStr.lower (PyStr.join " " ws) = PyStr.join " " ws).
  { now rewrite PyStrFacts.lower_join, Hlow. }
  repeat split.
  - rewrite PyStrFacts.normalize_topic_alt, Hlower. now rewrite Hsplit.
  - exact Hlower.
  - unfold PyStr.strip.
    now rewrite BlankFacts.lstrip_join_words, BlankFacts.rstrip_join_words.
  - now rewrite Hsplit.
Qed.

(** X2. The key of a topic is empty exactly when the topic is blank, so
    [update_progress] skips the blank topics and no others; stripping a
    topic first, as the callers do, does not change its key. *)
Theorem blank_topics_are_the_skipped_ones (topic : string) (w : World) :
  PyStr.is_empty (normalize_topic topic) = PyStrExt.blank topic
  /\ PyStr.is_empty (PyStr.strip topic) = PyStrExt.blank topic
  /\ normalize_topic (PyStr.strip topic) = normalize_topic topic
  /\ (PyStrExt.blank topic = true <-> update_progress topic w = Ok (tt, w)).
Proof.
  repeat split.
  - apply BlankFacts.is_empty_normalize.
  - apply BlankFacts.is_empty_strip.
  - apply BlankFacts.normalize_topic_strip.
  - intros Hb. apply TrackerFacts.update_progress_noop.
    now rewrite BlankFacts.is_empty_normalize.
  - intros Hrun. destruct (PyStrExt.blank topic) eqn:Hb; [reflexivity|].
    exfalso. unfold update_progress, bind, load_progress, save_progress in Hrun.
    rewrite BlankFacts.is_empty_normalize, Hb in Hrun.
    destruct (load_payload (progress_file w)); [|discriminate].
    injection Hrun as Hw. apply (f_equal io_log) in Hw. simpl in Hw.
    rewrite <- app_assoc in Hw. rewrite <- (app_nil_r (io_log w)) in Hw at 2.
    apply app_inv_head in Hw. discriminate.
Qed.

(** ** More on the store *)

Module StoreMoreFacts.
Import PyStr DictFacts StoreFacts TrackerFacts.

Lemma mem_set (k k' : string) (v : Z) (d : dict Z) :
  Dict.mem k' (Dict.set k v d) = Dict.mem k' d || String.eqb k' k.
Proof.
  unfold Dict.mem. destruct (String.eqb k' k) eqn:E.
  - apply String.eqb_eq in E. subst. rewrite get_set_same. now rewrite orb_true_r.
  - apply String.eqb_neq in E. rewrite get_set_other by assumption.
    now rewrite orb_false_r.
Qed.

Lemma mem_load_step (k : string) (item : string * json) (acc : dict Z) :
  Dict.mem k (load_step acc item) = Dict.mem k acc || counts_for k item.
Proof.
  destruct item as [key value]. unfold load_step, counts_for. simpl.
  destruct (String.eqb (normalize_topic key) k) eqn:E.
  - apply String.eqb_eq in E. subst k.
    destruct (is_empty (normalize_topic key)); simpl; [now rewrite orb_false_r|].
    destruct (PyInt.of_json value); [|now rewrite orb_false_r].
    now rewrite mem_set, String.eqb_refl.
  - simpl. rewrite orb_false_r.
    destruct (is_empty (normalize_topic key)); [reflexivity|].
    destruct (PyInt.of_json value); [|reflexivity].
    rewrite mem_set. rewrite String.eqb_sym, E. now rewrite orb_false_r.
Qed.

Lemma mem_fold (k : string) (items : list (string * json)) (acc : dict Z) :
  Dict.mem k (fold_left load_step items acc)
  = Dict.mem k acc || existsb (counts_for k) items.
Proof.
  revert acc. induction items as [|item items IH]; intros acc; simpl.
  - now rewrite orb_false_r.
  - now rewrite IH, mem_load_step, orb_assoc.
Qed.

Lemma get_bumped (k k' : string) (m : dict Z) :
  Dict.get k' (bumped k m)
  = if String.eqb k' k then Some (Dict.get_default k 0 m + 1)%Z
    else Dict.get k' m.
Proof.
  unfold bumped. destruct (String.eqb k' k) eqn:E.
  - apply String.eqb_eq in E. subst. apply get_set_same.
  - apply String.eqb_neq in E. now apply get_set_other.
Qed.

Lemma store_ok_after_update (topic : string) (m : dict Z) :
  store_ok m -> store_ok (after_update topic m).
Proof.
  intros Hm. unfold after_update.
  destruct (is_empty (normalize_topic topic)) eqn:He; [assumption|].
  apply store_ok_bumped; [now apply normal_key_normalize | assumption].
Qed.

(** One [update_progress] on a store that loads: it returns, and the store
    then loads to [after_update]. *)
Lemma update_progress_map (topic : string) (w : World) (m : dict Z) :
  load_payload (progress_file w) = Ok m ->
  exists w',
    update_progress topic w = Ok (tt, w')
    /\ load_payload (progress_file w') = Ok (after_update topic m).
Proof.
  intros Hload. unfold after_update.
  destruct (is_empty (normalize_topic topic)) eqn:He.
  - exists w. split; [now apply update_progress_noop | assumption].
  - destruct (update_progress_reload topic w m He Hload) as (w' & Hrun & Hre & _).
    now exists w'.
Qed.

Lemma get_after_update (topic k : string) (m : dict Z) :
  Dict.get k (after_update topic m)
  = if negb (is_empty (normalize_topic topic))
       && String.eqb k (normalize_topic topic)
    then Some (Dict.get_default (normalize_topic topic) 0 m + 1)%Z
    else Dict.get k m.
Proof.
  unfold after_update. destruct (is_empty (normalize_topic topic)); simpl.
  - reflexivity.
  - apply get_bumped.
Qed.

Lemma get_difficulty_run (topic : string) (w : World) (m : dict Z) :
  load_payload (progress_file w) = Ok m ->
  get_difficulty topic w
  = Ok (tier_of (Dict.get_default (normalize_topic topic) 0%Z m),
        log_event ReadProgress w).
Proof.
  intros Hload. unfold get_difficulty, bind, load_progress, tier_of.
  rewrite Hload.
  destruct (5 <? _)%Z; [reflexivity|]. destruct (2 <? _)%Z; reflexivity.
Qed.

Lemma tier_of_cases (score : Z) :
  (tier_of score = "easy" <-> (5 < score)%Z)
  /\ (tier_of score = "medium" <-> (2 < score <= 5)%Z)
  /\ (tier_of score = "hard" <-> (score <= 2)%Z).
Proof.
  unfold tier_of.
  destruct (5 <? score)%Z eqn:H5; [|destruct (2 <? score)%Z eqn:H2];
    rewrite ?Z.ltb_lt, ?Z.ltb_ge in *;
    repeat split; intros; try lia; try discriminate; reflexivity.
Qed.

End StoreMoreFacts.

(** X3. A progress file holding any JSON object loads: no key comes out
    twice, every key is a non-empty normal form, a key is present exactly
    when some raw entry with an [int]-coercible value normalizes to it, and
    its count is the sum of those values. *)
Theorem load_progress_of_object (items : list (string * json)) :
  exists d,
    load_payload (Parsed (JObj items)) = Ok d
    /\ store_ok d
    /\ (forall k, Dict.get_default k 0%Z d = sum_Z (map (contribution k) items))
    /\ (forall k, Dict.mem k d = true
                  <-> exists key value n,
                      In (key, value) items
                      /\ normalize_topic key = k
                      /\ PyStr.is_empty k = false
                      /\ PyInt.of_json value = Some n).
Proof.
  exists (fold_left load_step items []).
  split; [reflexivity|]. split; [apply StoreFacts.store_ok_fold, StoreFacts.store_ok_nil|].
  split.
  - intros k. now rewrite StoreFacts.fold_load_counts.
  - intros k. rewrite StoreMoreFacts.mem_fold. simpl. rewrite existsb_exists.
    unfold counts_for. split.
    + intros ([key value] & Hin & Hc). simpl in Hc.
      apply andb_true_iff in Hc as [Hc Hv]. apply andb_true_iff in Hc as [Hk Hne].
      apply String.eqb_eq in Hk. apply negb_true_iff in Hne.
      destruct (PyInt.of_json value) as [n|] eqn:Hn; [|discriminate].
      now exists key, value, n.
    + intros (key & value & n & Hin & Hk & Hne & Hn).
      exists (key, value). split; [assumption|]. simpl.
      now rewrite Hk, String.eqb_refl, Hne, Hn.
Qed.

(** X4. What [load_progress] returns survives [save_progress]: saving the
    loaded map and loading again gives the same map. *)
Theorem load_save_load (w w1 : World) (d : dict Z) :
  load_progress w = Ok (d, w1) ->
  exists w2 w3,
    save_progress d w1 = Ok (tt, w2)
    /\ load_progress w2 = Ok (d, w3)
    /\ notes_dir w3 = notes_dir w.
Proof.
  unfold load_progress. intros Hload.
  destruct (load_payload (progress_file w)) as [d'|] eqn:Hp; [|discriminate].
  injection Hload as -> <-.
  eexists. eexists. split; [reflexivity|].
  change (progress_file (log_event WriteProgress ?x)) with (progress_file x).
  cbn [progress_file]. rewrite StoreFacts.load_dumps.
  - split; reflexivity.
  - now apply StoreFacts.load_payload_ok with (progress_file w).
Qed.

Lemma load_save_load_witness :
  exists w2 w3,
    save_progress [("algebra", 5%Z)]
      (log_event ReadProgress
         {| progress_file :=
              Parsed (JObj [(" Algebra", JInt 2); ("ALGEBRA ", JStr "3");
                            ("", JInt 9); ("sets", JNull)]);
            notes_dir := []; now := now startup_world; io_log := [] |})
    = Ok (tt, w2)
    /\ load_progress w2 = Ok ([("algebra", 5%Z)], w3)
    /\ notes_dir w3 = [].
Proof.
  exact (load_save_load
           {| progress_file :=
                Parsed (JObj [(" Algebra", JInt 2); ("ALGEBRA ", JStr "3");
                              ("", JInt 9); ("sets", JNull)]);
              notes_dir := []; now := now startup_world; io_log := [] |}
           _ _ eq_refl).
Defined.

(** X5. Two calls of [update_progress] commute: on a store that loads, the
    two orders both return and leave stores that load to maps with the same
    entry at every key. *)
Theorem update_progress_commutes (t1 t2 : string) (w : World) (m : dict Z) :
  load_payload (progress_file w) = Ok m ->
  exists wa wb ma mb,
    (update_progress t1 ;;; update_progress t2) w = Ok (tt, wa)
    /\ (update_progress t2 ;;; update_progress t1) w = Ok (tt, wb)
    /\ load_payload (progress_file wa) = Ok ma
    /\ load_payload (progress_file wb) = Ok mb
    /\ forall k, Dict.get k ma = Dict.get k mb.
Proof.
  intros Hload.
  destruct (StoreMoreFacts.update_progress_map t1 w m Hload) as (w1 & Hr1 & Hl1).
  destruct (StoreMoreFacts.update_progress_map t2 w1 _ Hl1) as (wa & Hra & Hla).
  destruct (StoreMoreFacts.update_progress_map t2 w m Hload) as (w2 & Hr2 & Hl2).
  destruct (StoreMoreFacts.update_progress_map t1 w2 _ Hl2) as (wb & Hrb & Hlb).
  exists wa, wb, (after_update t2 (after_update t1 m)),
    (after_update t1 (after_update t2 m)).
  unfold bind. rewrite Hr1, Hr2. repeat split; try assumption.
  intros k. rewrite !StoreMoreFacts.get_after_update.
  unfold Dict.get_default. rewrite !StoreMoreFacts.get_after_update.
  destruct (PyStr.is_empty (normalize_topic t1)),
           (PyStr.is_empty (normalize_topic t2)); simpl; try reflexivity.
  generalize (normalize_topic t1), (normalize_topic t2). intros k1 k2.
  unfold Dict.get_default.
  destruct (String.eqb_spec k k1), (String.eqb_spec k k2),
    (String.eqb_spec k1 k2), (String.eqb_spec k2 k1);
    subst; try congruence; reflexivity.
Qed.

Lemma update_progress_commutes_witness :
  exists wa wb ma mb,
    (update_progress "Sets" ;;; update_progress " algebra ") startup_world
    = Ok (tt, wa)
    /\ (update_progress " algebra " ;;; update_progress "Sets") startup_world
       = Ok (tt, wb)
    /\ load_payload (progress_file wa) = Ok ma
    /\ load_payload (progress_file wb) = Ok mb
    /\ forall k, Dict.get k ma = Dict.get k mb.
Proof.
  exact (update_progress_commutes "Sets" " algebra " startup_world [] eq_refl).
Defined.

(** X6. After [n] calls of [update_progress] on spellings of one topic,
    [get_difficulty] answers for the count before plus [n]: "easy" above 5,
    "medium" from 3 to 5, "hard" up to 2. *)
Theorem difficulty_after_updates
    (topics : list string) (topic : string) (w : World) (c : Z) :
  PyStr.is_empty (normalize_topic topic) = false ->
  (forall t, In t topics -> normalize_topic t = normalize_topic topic) ->
  stored_count (normalize_topic topic) w = Ok c ->
  exists tier w' w'',
    update_each topics w = Ok (tt, w')
    /\ get_difficulty topic w' = Ok (tier, w'')
    /\ let score := (c + Z.of_nat (List.length topics))%Z in
       (tier = "easy" <-> (5 < score)%Z)
       /\ (tier = "medium" <-> (2 < score <= 5)%Z)
       /\ (tier = "hard" <-> (score <= 2)%Z).
Proof.
  intros Hne Hall Hc.
  destruct (TrackerFacts.update_each_counts topics (normalize_topic topic)
              Hne Hall w c Hc) as (w' & Hrun & Hcount).
  unfold stored_count in Hcount.
  destruct (load_payload (progress_file w')) as [m'|] eqn:Hload; [|discriminate].
  injection Hcount as Hcount.
  exists (tier_of (c + Z.of_nat (List.length topics))), w',
    (log_event ReadProgress w').
  split; [assumption|]. split.
  - rewrite (StoreMoreFacts.get_difficulty_run topic w' m' Hload). now rewrite Hcount.
  - apply StoreMoreFacts.tier_of_cases.
Qed.

(** A new installation: the third answer on a topic makes it "medium". *)
Lemma difficulty_after_updates_witness :
  exists tier w' w'',
    update_each ["Sets"; "sets "; " SETS"] startup_world = Ok (tt, w')
    /\ get_difficulty "sets" w' = Ok (tier, w'')
    /\ (tier = "medium" <-> (2 < 0 + 3 <= 5)%Z).
Proof.
  assert (Hall : forall t, In t ["Sets"; "sets "; " SETS"] ->
                        normalize_topic t = normalize_topic "sets").
  { intros t [<- | [<- | [<- | []]]]; reflexivity. }
  destruct (difficulty_after_updates ["Sets"; "sets "; " SETS"] "sets"
              startup_world 0%Z eq_refl Hall eq_refl)
    as (tier & w' & w'' & H1 & H2 & _ & H3 & _).
  exists tier, w', w''. split; [exact H1|]. split; [exact H2 | exact H3].
Defined.

(** ** More on the dispatcher *)

Module DispatcherMoreFacts.

(** However the loop of [generate] ends, it is in one of three ways. *)
Lemma generate_from_cases (cl : Client) (contents : Contents)
    (models : list string) :
  forall last,
    let out := fst (generate_from cl contents last models) in
    let called := snd (generate_from cl contents last models) in
    (all_not_found cl contents models
     /\ called = models
     /\ out = PyText ("Gemini API Error: all candidate models failed. Last error: "
                      ++ last_error_after cl contents last models))
    \/ (exists pre m post,
           models = (pre ++ m :: post)%list
           /\ called = (pre ++ [m])%list
           /\ all_not_found cl contents pre
           /\ ((exists response,
                   cl m contents = Returns response
                   /\ out = _extract_text response)
               \/ (exists e,
                      cl m contents = Fails e
                      /\ _is_not_found e = false
                      /\ out = PyText ("Gemini API Error: " ++ e)))).
Proof.
  induction models as [|m models IH]; intros last; cbn zeta.
  - left. repeat split. constructor.
  - cbn [generate_from].
    destruct (cl m contents) as [response | e] eqn:Hm.
    + right. exists [], m, models. repeat split; [constructor|].
      left. now exists response.
    + destruct (_is_not_found e) eqn:Hnf.
      * specialize (IH (m ++ ": " ++ e)). cbn zeta in IH.
        destruct (generate_from cl contents (m ++ ": " ++ e) models)
          as [out called]. cbn [fst snd] in *.
        destruct IH as [(Hall & -> & ->) | (pre & x & post & -> & -> & Hpre & Hend)].
        -- left. repeat split.
           ++ constructor; [now exists e | assumption].
           ++ unfold last_error_after. cbn [fold_left]. now rewrite Hm.
        -- right. exists (m :: pre), x, post. repeat split.
           ++ constructor; [now exists e | assumption].
           ++ exact Hend.
      * right. exists [], m, models. repeat split; [constructor|].
        right. now exists e.
Qed.

Lemma probe_all_lines (self : SomaTutor) (models : list string) :
  forall st lines st' lines',
    probe_all self models st lines = Ok (st', lines') ->
    lines' = (lines ++ map (fun m => snd (probe self m)) models)%list.
Proof.
  induction models as [|m models IH]; intros st lines st' lines' Hrun.
  - cbn in Hrun. injection Hrun as _ <-. now rewrite app_nil_r.
  - cbn [probe_all map] in *. destruct (probe self m) as [bucket line].
    destruct (increment bucket st) as [st1|]; [|discriminate].
    apply IH in Hrun. rewrite Hrun, <- app_assoc. reflexivity.
Qed.

Lemma sum_tags (ts : list string) :
  Forall (fun t => In t status_keys) ts ->
  list_sum (map (fun k => count_tag k ts) status_keys) = List.length ts.
Proof.
  induction 1 as [|t ts Ht _ IH]; [reflexivity|].
  unfold status_keys in *. cbn [map list_sum] in *.
  rewrite !AccessFacts.count_tag_cons. cbn [List.length]. rewrite <- IH.
  cbn [In] in Ht.
  repeat (destruct Ht as [<- | Ht]; [cbn; lia|]). destruct Ht.
Qed.

End DispatcherMoreFacts.

(** X7. [generate] calls a prefix of the candidate list, in order, and ends
    in exactly one of three ways: every candidate was called and failed with
    "not found" (the exhaustion text); or the last model called answered
    (its extracted text); or the last model called failed otherwise (the
    sentinel and its error); every model called before the last failed with
    "not found". *)
Theorem generate_calls_a_prefix (self : SomaTutor) (contents : Contents) :
  let cl := client self in
  let models := model_candidates self in
  let out := fst (generate self contents) in
  let called := snd (generate self contents) in
  (exists rest, models = (called ++ rest)%list)
  /\ ((all_not_found cl contents models
       /\ called = models
       /\ out = PyText ("Gemini API Error: all candidate models failed. Last error: "
                        ++ last_error_after cl contents "" models))
      \/ (exists pre m,
             called = (pre ++ [m])%list
             /\ all_not_found cl contents pre
             /\ ((exists response,
                     cl m contents = Returns response
                     /\ out = _extract_text response)
                 \/ (exists e,
                        cl m contents = Fails e
                        /\ _is_not_found e = false
                        /\ out = PyText ("Gemini API Error: " ++ e))))).
Proof.
  cbn zeta. unfold generate.
  destruct (DispatcherMoreFacts.generate_from_cases
              (client self) contents (model_candidates self) "")
    as [(Hall & Hc & Ho) | (pre & m & post & Hm & Hc & Hpre & Hend)].
  - split; [exists []; now rewrite Hc, app_nil_r|]. left. now repeat split.
  - split.
    + exists post. rewrite Hc, Hm, <- app_assoc. reflexivity.
    + right. now exists pre, m.
Qed.

(** X8. A result of [generate] that is [None] or a text without the
    sentinel is the extracted text of a model of the list that answered:
    the last one called. *)
Theorem generate_success_has_a_source
    (self : SomaTutor) (contents : Contents) (out : pyval) (called : list string) :
  generate self contents = (out, called) ->
  (forall t, out = PyText t -> is_api_error_text t = false) ->
  exists pre m response,
    called = (pre ++ [m])%list
    /\ In m (model_candidates self)
    /\ client self m contents = Returns response
    /\ _extract_text response = out.
Proof.
  intros Hgen Hok. unfold generate in Hgen.
  destruct (DispatcherMoreFacts.generate_from_cases
              (client self) contents (model_candidates self) "")
    as [(_ & _ & Ho) | (pre & m & post & Hm & Hc & _ & Hend)];
    rewrite Hgen in *; cbn [fst snd] in *.
  - specialize (Hok _ Ho). discriminate.
  - destruct Hend as [(response & Hr & Ho) | (e & _ & _ & Ho)].
    + exists pre, m, response. repeat split; try assumption; [|now symmetry].
      rewrite Hm. apply in_or_app. right. now left.
    + specialize (Hok _ Ho). discriminate.
Qed.

Lemma generate_success_has_a_source_witness :
  exists pre m response,
    ["a"; "b"] = (pre ++ [m])%list
    /\ In m ["a"; "b"; "c"]
    /\ sample_client m (TextContents "Why?") = Returns response
    /\ _extract_text response = PyText "OK".
Proof.
  refine (generate_success_has_a_source
            {| client := sample_client; model_candidates := ["a"; "b"; "c"] |}
            (TextContents "Why?") (PyText "OK") ["a"; "b"] eq_refl _).
  intros t [= <-]. reflexivity.
Defined.

(** X9. [_extract_text] returns [None] in one situation only: the direct
    text is missing or empty, the first content part of the first candidate
    exists, and that part's [text] is [None]. *)
Theorem extract_text_None_iff (response : Response) :
  _extract_text response = PyNone
  <-> direct_text response = None
      /\ exists part, first_part response = Some part
                      /\ part_text part = PyNone.
Proof.
  unfold _extract_text, direct_text. rewrite deep_text_first_part.
  destruct (text response) as [[|[|c s]]|]; cbn;
    (destruct (first_part response) as [part|];
     [ split;
       [ intros H; split; [reflexivity | now exists part]
       | intros [_ (p & [= <-] & Hp)]; exact Hp ]
     | split; [discriminate | intros [_ (p & Hp & _)]; discriminate] ])
    || (split; [discriminate | intros [H _]; discriminate]).
Qed.

(** X10. The report of [check_access] has the two header lines, one line
    per configured model in order, the dashes, the summary and the verdict;
    each of the seven counters holds the number of models counted under
    its tag, and the counters add up to the number of models. *)
Theorem check_access_report (self : SomaTutor) :
  exists statuses line,
    check_access self
    = Ok (PyStr.join newline
            (["Gemini access check"; PyStr.repeat_char "-" 40]
             ++ map (fun m => snd (probe self m)) (model_candidates self)
             ++ [PyStr.repeat_char "-" 40;
                 ("Summary: " ++ summary_items statuses)%string; line])%list)
    /\ Dict.keys statuses = status_keys
    /\ (forall k, Dict.get_default k 0 statuses = count_tag k (tags self))
    /\ list_sum (map (fun k => Dict.get_default k 0 statuses) status_keys)
       = List.length (model_candidates self).
Proof.
  unfold check_access.
  destruct (AccessFacts.probe_all_counts self (model_candidates self)
              initial_statuses
              ["Gemini access check"; PyStr.repeat_char "-" 40] eq_refl)
    as (st & lines & Hrun & Hkeys & Hcount).
  rewrite Hrun.
  apply DispatcherMoreFacts.probe_all_lines in Hrun.
  assert (Hc : forall k, Dict.get_default k 0 st = count_tag k (tags self)).
  { intros k. now rewrite Hcount, AccessFacts.initial_counts. }
  unfold verdict.
  rewrite !AccessFacts.subscript_count by (try assumption; simpl; tauto).
  exists st.
  assert (Hsum : list_sum (map (fun k => Dict.get_default k 0 st) status_keys)
                 = List.length (model_candidates self)).
  { rewrite (map_ext _ (fun k => count_tag k (tags self)) Hc).
    rewrite DispatcherMoreFacts.sum_tags.
    - unfold tags. apply length_map.
    - unfold tags. apply Forall_forall. intros t Ht.
      apply in_map_iff in Ht as (m & <- & _).
      apply AccessFacts.probe_tag_closed. }
  rewrite Hrun.
  repeat match goal with
         | |- context [if ?b then _ else _] => destruct b
         end;
    eexists; (split; [rewrite <- !app_assoc; reflexivity|]);
    repeat split; assumption.
Qed.

(** ** Configuration *)

Module ConfigFacts.
Import PyStr PyStrExt BlankFacts.

Lemma lead_ok_lstrip (s : string) : lead_ok (lstrip s) = true.
Proof.
  induction s as [|c s IH]; simpl; [reflexivity|].
  destruct (is_space c) eqn:Hc; [exact IH | simpl; now rewrite Hc].
Qed.

Lemma lead_ok_rstrip (s : string) : lead_ok s = true -> lead_ok (rstrip s) = true.
Proof.
  destruct s as [|c s]; simpl; [reflexivity|].
  intros Hc. apply negb_true_iff in Hc. rewrite Hc. simpl. now rewrite Hc.
Qed.

Lemma lstrip_lead_ok (s : string) : lead_ok s = true -> lstrip s = s.
Proof.
  destruct s as [|c s]; simpl; [reflexivity|].
  intros Hc. apply negb_true_iff in Hc. now rewrite Hc.
Qed.

Lemma rstrip_idem (s : string) : rstrip (rstrip s) = rstrip s.
Proof.
  induction s as [|c s IH]; simpl; [reflexivity|].
  destruct (is_space c && is_empty (rstrip s)) eqn:E; [reflexivity|].
  simpl. now rewrite IH, E.
Qed.

Lemma strip_idem (s : string) : strip (strip s) = strip s.
Proof.
  unfold strip at 1.
  rewrite (lstrip_lead_ok (strip s)).
  - unfold strip. apply rstrip_idem.
  - unfold strip. apply lead_ok_rstrip, lead_ok_lstrip.
Qed.

Lemma clean_strip (s : string) :
  is_empty (strip s) = false -> clean_name (strip s).
Proof. intros H. split; [exact H | apply strip_idem]. Qed.

Lemma parsed_models_clean (s : string) : Forall clean_name (parsed_models s).
Proof.
  unfold parsed_models. apply Forall_forall. intros m Hm.
  apply in_map_iff in Hm as (raw & <- & Hraw).
  apply filter_In in Hraw as [_ Hne]. apply negb_true_iff in Hne.
  now apply clean_strip.
Qed.

Lemma generate_calls_someone (self : SomaTutor) (contents : Contents) :
  model_candidates self <> [] -> snd (generate self contents) <> [].
Proof.
  intros Hne. unfold generate.
  destruct (DispatcherMoreFacts.generate_from_cases
              (client self) contents (model_candidates self) "")
    as [(_ & -> & _) | (pre & m & _ & _ & -> & _)]; [assumption|].
  now destruct pre.
Qed.

End ConfigFacts.

(** X11. [parse_model_candidates] never returns an empty list, and every
    name it returns is non-empty with no whitespace at either end. It is
    the non-blank entries of GEMINI_MODELS, each stripped, when there are
    any; else GEMINI_MODEL stripped when that is not blank; else the three
    defaults. *)
Theorem parse_model_candidates_clean (env : Environ) :
  let listed := parsed_models (PyStr.strip (getenv env "GEMINI_MODELS" "")) in
  let single := getenv env "GEMINI_MODEL" "" in
  parse_model_candidates env <> []
  /\ Forall clean_name (parse_model_candidates env)
  /\ (listed <> [] -> parse_model_candidates env = listed)
  /\ (listed = [] -> PyStrExt.blank single = false ->
      parse_model_candidates env = [PyStr.strip single])
  /\ (listed = [] -> PyStrExt.blank single = true ->
      parse_model_candidates env = DEFAULT_MODELS).
Proof.
  cbn zeta. unfold parse_model_candidates.
  set (ms := PyStr.strip (getenv env "GEMINI_MODELS" "")).
  set (single := getenv env "GEMINI_MODEL" "").
  rewrite (BlankFacts.is_empty_strip single).
  assert (Hclean := ConfigFacts.parsed_models_clean ms).
  assert (Hempty : PyStr.is_empty ms = true -> parsed_models ms = []).
  { intros He. apply PyStrFacts.is_empty_true in He. now rewrite He. }
  assert (Hfb : let l := if negb (PyStrExt.blank single)
                         then [PyStr.strip single] else DEFAULT_MODELS in
                l <> [] /\ Forall clean_name l).
  { cbn zeta. destruct (PyStrExt.blank single) eqn:Hs; simpl.
    - split; [discriminate|]. repeat constructor; reflexivity.
    - split; [discriminate|]. constructor; [|constructor].
      apply ConfigFacts.clean_strip. now rewrite BlankFacts.is_empty_strip. }
  cbn zeta in Hfb. destruct Hfb as [Hfb1 Hfb2].
  destruct (PyStr.is_empty ms) eqn:He; simpl.
  - rewrite (Hempty eq_refl). repeat split; try assumption.
    + intros H. now destruct H.
    + intros _ ->. reflexivity.
    + intros _ ->. reflexivity.
  - destruct (parsed_models ms) as [|m rest] eqn:Hp.
    + repeat split; try assumption.
      * intros H. now destruct H.
      * intros _ ->. reflexivity.
      * intros _ ->. reflexivity.
    + repeat split; try assumption; try discriminate.
Qed.

(** X12. [SomaTutor()] raises its [ValueError] exactly when GOOGLE_API_KEY
    is unset or blank. Otherwise the client gets the key stripped, the
    instance has at least one candidate, and [generate] on it calls at least
    one model. *)
Theorem SomaTutor_init_outcome (env : Environ) (make_client : string -> Client) :
  let key := getenv env "GOOGLE_API_KEY" "" in
  (PyStrExt.blank key = true ->
   SomaTutor_init env make_client
   = ValueError "Missing GOOGLE_API_KEY in environment/.env")
  /\ (PyStrExt.blank key = false ->
      exists self,
        SomaTutor_init env make_client = Instance self
        /\ client self = make_client (PyStr.strip key)
        /\ model_candidates self = parse_model_candidates env
        /\ model_candidates self <> []
        /\ forall contents, snd (generate self contents) <> []).
Proof.
  cbn zeta. unfold SomaTutor_init, API_KEY, MODEL_CANDIDATES.
  rewrite BlankFacts.is_empty_strip. split; intros ->; [reflexivity|].
  eexists. split; [reflexivity|]. cbn [client model_candidates].
  assert (Hne : parse_model_candidates env <> []).
  { unfold parse_model_candidates.
    destruct (negb _); [destruct (parsed_models _)|];
      try discriminate;
      destruct (negb _); discriminate. }
  repeat split; try assumption.
  intros contents. now apply ConfigFacts.generate_calls_someone.
Qed.

(** X13. [pick_mime_type] reads the path through its lower-cased suffix
    only: the four image suffixes give an "image/" type, the six audio
    suffixes an "audio/" type, and every other suffix, the empty one
    included, gives "application/octet-stream". *)
Theorem pick_mime_type_table (suffix : string -> string) (file_path : string) :
  let ext := PyStr.lower (suffix file_path) in
  let mime := pick_mime_type suffix file_path in
  (PyStr.startswith "image/" mime = true
   <-> In ext [".jpg"; ".jpeg"; ".png"; ".webp"])
  /\ (PyStr.startswith "audio/" mime = true
      <-> In ext [".wav"; ".mp3"; ".m4a"; ".aac"; ".flac"; ".ogg"])
  /\ (mime = "application/octet-stream"
      <-> ~ In ext [".jpg"; ".jpeg"; ".png"; ".webp"; ".wav"; ".mp3"; ".m4a";
                   ".aac"; ".flac"; ".ogg"])
  /\ (forall other,
        PyStr.lower (suffix other) = ext ->
        pick_mime_type suffix other = mime).
Proof.
  cbn zeta. unfold pick_mime_type.
  split; [|split; [|split]]; [| | |intros other ->; reflexivity];
    generalize (PyStr.lower (suffix file_path)); intros ext;
    unfold image_map, audio_map, or_else; cbn [Dict.get In];
    repeat match goal with
           | |- context [String.eqb ext ?k] =>
               destruct (String.eqb_spec ext k); [subst ext|]
           end;
    cbn; split; intros H; try reflexivity; try discriminate;
    try (repeat (destruct H as [H | H]; [congruence|]); now destruct H);
    try tauto; try (exfalso; apply H; tauto);
    try (intros Hin; repeat (destruct Hin as [Hin | Hin]; [congruence|]);
         now destruct Hin).
Qed.

(** ** Prompts *)

Module PromptFacts.
Import PyStr PyStrExt PyStrFacts BlankFacts ConfigFacts.

Lemma blank_app (a b : string) : blank (a ++ b) = blank a && blank b.
Proof.
  induction a as [|c a IH]; simpl; [reflexivity|].
  now rewrite IH, andb_assoc.
Qed.

Lemma blank_app_r (a c : string) : blank c = false -> blank (a ++ c) = false.
Proof. intros H. now rewrite blank_app, H, andb_false_r. Qed.

Lemma rstrip_app_nonblank (a b : string) :
  blank b = false -> rstrip (a ++ b) = a ++ rstrip b.
Proof. intros H. now rewrite rstrip_app, is_empty_rstrip, H. Qed.

Lemma rstrip_app_blank (a b : string) :
  blank b = true -> rstrip (a ++ b) = rstrip a.
Proof. intros H. now rewrite rstrip_app, is_empty_rstrip, H. Qed.

Lemma strip_newline_lead (r : string) :
  lead_ok r = true -> strip (newline ++ r) = rstrip r.
Proof.
  intros H. unfold strip. f_equal.
  change (newline ++ r) with (String (ascii_of_nat 10) r).
  cbn [lstrip]. change (is_space (ascii_of_nat 10)) with true. cbn iota.
  now apply lstrip_lead_ok.
Qed.

(** [rstrip] of a field followed by the closing newline, after a head that
    ends in a character that is not whitespace. *)
Lemma rstrip_head_field (head sep field : string) :
  rstrip head = head -> blank head = false -> blank sep = true ->
  rstrip (head ++ sep ++ field ++ newline)
  = if blank field then head else head ++ sep ++ rstrip field.
Proof.
  intros Hhead Hnb Hsep.
  assert (Hnl : blank newline = true) by reflexivity.
  destruct (blank field) eqn:Hf.
  - rewrite rstrip_app_blank; [exact Hhead|].
    now rewrite !blank_app, Hsep, Hf, Hnl.
  - rewrite rstrip_app_nonblank
      by (now rewrite !blank_app, Hf, andb_false_r).
    rewrite rstrip_app_nonblank by (now rewrite blank_app, Hf).
    now rewrite rstrip_app_blank.
Qed.

Ltac chain_nonblank :=
  repeat (rewrite rstrip_app_nonblank
            by (repeat apply blank_app_r; reflexivity));
  reflexivity.

Lemma rstrip_ask_head (d t : string) : rstrip (ask_head d t) = ask_head d t.
Proof. unfold ask_head. chain_nonblank. Qed.

Lemma blank_ask_head (d t : string) : blank (ask_head d t) = false.
Proof. unfold ask_head. repeat apply blank_app_r. reflexivity. Qed.

End PromptFacts.

(** X14. Each prompt is its fixed head followed by the last field with its
    trailing whitespace removed; when that field is blank the prompt stops
    at the head ("Question:", "Text:", "Topic:"). Whitespace elsewhere in
    the fields is kept. *)
Theorem prompts_closed_form (difficulty topic question text : string) :
  ask_prompt difficulty topic question
  = (if PyStrExt.blank question then ask_head difficulty topic
     else ask_head difficulty topic ++ newline ++ PyStr.rstrip question)
  /\ summarize_prompt text
     = (if PyStrExt.blank text then summarize_head
        else summarize_head ++ newline ++ PyStr.rstrip text)
  /\ quiz_prompt topic
     = (if PyStrExt.blank topic then quiz_head
        else quiz_head ++ " " ++ PyStr.rstrip topic).
Proof.
  split; [|split].
  - unfold ask_prompt. rewrite PromptFacts.strip_newline_lead by reflexivity.
    match goal with
    | |- PyStr.rstrip ?x = _ =>
        replace x with (ask_head difficulty topic ++ newline ++ question ++ newline)
          by (unfold ask_head; now rewrite !PyStrFacts.append_assoc)
    end.
    apply PromptFacts.rstrip_head_field;
      [apply PromptFacts.rstrip_ask_head | apply PromptFacts.blank_ask_head
      | reflexivity].
  - unfold summarize_prompt. rewrite PromptFacts.strip_newline_lead by reflexivity.
    match goal with
    | |- PyStr.rstrip ?x = _ =>
        replace x with (summarize_head ++ newline ++ text ++ newline)
          by (unfold summarize_head; now rewrite !PyStrFacts.append_assoc)
    end.
    apply PromptFacts.rstrip_head_field; reflexivity.
  - unfold quiz_prompt. rewrite PromptFacts.strip_newline_lead by reflexivity.
    match goal with
    | |- PyStr.rstrip ?x = _ =>
        replace x with (quiz_head ++ " " ++ topic ++ newline)
          by (unfold quiz_head; now rewrite !PyStrFacts.append_assoc)
    end.
    apply PromptFacts.rstrip_head_field; reflexivity.
Qed.

(** ** The operations and their callers *)

Module OperationFacts.
Import PyStr PyStrExt BlankFacts StoreMoreFacts.

Lemma ask_run (self : SomaTutor) (topic question : string)
    (w : World) (m : dict Z) :
  load_payload (progress_file w) = Ok m ->
  ask self topic question w
  = Ok (generate self
          (TextContents
             (ask_prompt (tier_of (Dict.get_default (normalize_topic topic) 0%Z m))
                         topic question)),
        log_event ReadProgress w).
Proof.
  intros Hload. unfold ask, bind.
  now rewrite (get_difficulty_run topic w m Hload).
Qed.

Lemma key_of_stripped (raw : string) :
  is_empty (normalize_topic (strip raw)) = blank raw.
Proof. now rewrite normalize_topic_strip, is_empty_normalize. Qed.

End OperationFacts.

(** X15. [ask] reads the store once and writes nothing: the prompt carries
    the tier of the topic's count as stored, and the count is the same
    after the call. On a progress file that holds JSON other than an
    object, [ask] raises before any model is called. *)
Theorem ask_reads_only (self : SomaTutor) (topic question : string) (w : World) :
  (forall m,
      load_payload (progress_file w) = Ok m ->
      let count := Dict.get_default (normalize_topic topic) 0%Z m in
      exists w',
        ask self topic question w
        = Ok (generate self
                (TextContents (ask_prompt (tier_of count) topic question)), w')
        /\ progress_file w' = progress_file w
        /\ notes_dir w' = notes_dir w
        /\ io_log w' = (io_log w ++ [ReadProgress])%list
        /\ stored_count (normalize_topic topic) w' = Ok count)
  /\ (forall v,
        progress_file w = Parsed v -> (forall items, v <> JObj items) ->
        ask self topic question w = Raise AttributeError).
Proof.
  split.
  - intros m Hload count. eexists. split; [now apply OperationFacts.ask_run|].
    repeat split. unfold stored_count. cbn [progress_file log_event].
    now rewrite Hload.
  - intros v Hv Hobj. unfold ask, bind, get_difficulty, bind, load_progress,
      load_payload. rewrite Hv.
    destruct v; try reflexivity. now destruct (Hobj items).
Qed.

(** X16. The /ask handler on a POST, the store loading: with a blank topic
    or question nothing is read and no model is called; otherwise the
    stripped topic is asked about, an answer that is a failure text leaves
    the store unwritten, and any other answer raises the count of the
    topic's key by exactly 1 (the key is never empty here); an answer that
    is [None] makes the handler raise. *)
Theorem ask_tutor_post (self : SomaTutor) (form : Form) (w : World) (m : dict Z) :
  load_payload (progress_file w) = Ok m ->
  let raw_topic := getenv form "topic" "" in
  let raw_question := getenv form "question" "" in
  let topic := PyStr.strip raw_topic in
  let k := normalize_topic topic in
  let count := Dict.get_default k 0%Z m in
  let answer :=
    fst (generate self
           (TextContents
              (ask_prompt (tier_of count) topic (PyStr.strip raw_question)))) in
  (PyStrExt.blank raw_topic || PyStrExt.blank raw_question = true ->
   ask_tutor self "POST" form w
   = Ok ((PyText "", "Topic and question are required."), w))
  /\ (PyStrExt.blank raw_topic || PyStrExt.blank raw_question = false ->
      PyStr.is_empty k = false
      /\ match answer with
         | PyNone => ask_tutor self "POST" form w = Raise AttributeError
         | PyText result =>
             if is_api_error_text result
             then ask_tutor self "POST" form w
                  = Ok ((PyText result,
                         "Gemini request failed. Progress was not updated."),
                        log_event ReadProgress w)
             else exists w',
                 ask_tutor self "POST" form w = Ok ((PyText result, ""), w')
                 /\ stored_count k w' = Ok (count + 1)%Z
                 /\ notes_dir w' = notes_dir w
         end).
Proof.
  intros Hload. cbn zeta.
  set (raw_topic := getenv form "topic" "").
  set (raw_question := getenv form "question" "").
  unfold ask_tutor. cbn [String.eqb Ascii.eqb Bool.eqb]. cbn iota.
  fold raw_topic raw_question.
  rewrite !BlankFacts.is_empty_strip.
  split; intros Hb; rewrite Hb; [reflexivity|].
  apply orb_false_iff in Hb as [Ht Hq].
  assert (Hk : PyStr.is_empty (normalize_topic (PyStr.strip raw_topic)) = false).
  { now rewrite OperationFacts.key_of_stripped. }
  split; [exact Hk|].
  unfold bind.
  rewrite (OperationFacts.ask_run self _ _ w m Hload).
  destruct (fst (generate self _)) as [|result]; [reflexivity|].
  destruct (is_api_error_text result); cbn [negb]; [reflexivity|].
  destruct (TrackerFacts.update_progress_reload (PyStr.strip raw_topic)
              (log_event ReadProgress w) m Hk Hload)
    as (w' & Hrun & Hre & Hnotes & _).
  exists w'. unfold ret. rewrite Hrun. repeat split.
  - unfold stored_count. rewrite Hre.
    now rewrite TrackerFacts.stored_count_bumped.
  - exact Hnotes.
Qed.

Lemma ask_tutor_post_witness :
  PyStr.is_empty (normalize_topic (PyStr.strip " Linear  Algebra ")) = false
  /\ exists w',
      ask_tutor {| client := sample_client; model_candidates := ["a"; "b"] |}
        "POST" sample_form startup_world
      = Ok ((PyText "OK", ""), w')
      /\ stored_count "linear algebra" w' = Ok 1%Z
      /\ notes_dir w' = [].
Proof.
  exact (proj2 (ask_tutor_post
                  {| client := sample_client; model_candidates := ["a"; "b"] |}
                  sample_form startup_world [] eq_refl) eq_refl).
Defined.

(** X17. [analyze_image] and [transcribe_audio] look at the stripped path.
    When the path is a regular file whose bytes are read they hand the
    bytes to the model with the media type of the path. When [exists()] or
    [is_file()] raises, the call raises that error and no model is called.
    In every other case no model is called and the message returned does
    not carry the failure sentinel. *)
Theorem local_file_operations
    (self : SomaTutor) (fs : FileSystem) (suffix : string -> string)
    (path : string) :
  let clean := PyStr.strip path in
  let st := fs clean in
  (forall data,
      PyStrExt.blank path = false -> readable st data ->
      analyze_image self fs suffix path
      = Returned (generate self
                    (MediaContents data (pick_mime_type suffix clean) image_prompt))
      /\ transcribe_audio self fs suffix path
         = Returned (generate self
                       (MediaContents data (pick_mime_type suffix clean)
                                      audio_prompt)))
  /\ (forall exc,
        PyStrExt.blank path = false -> check_raises st exc ->
        analyze_image self fs suffix path = RaisedOSError exc
        /\ transcribe_audio self fs suffix path = RaisedOSError exc)
  /\ (PyStrExt.blank path = true
      \/ ((forall data, ~ readable st data)
          /\ (forall exc, ~ check_raises st exc)) ->
      (exists message,
          analyze_image self fs suffix path = Returned (PyText message, [])
          /\ is_api_error_text message = false)
      /\ (exists message,
             transcribe_audio self fs suffix path = Returned (PyText message, [])
             /\ is_api_error_text message = false)).
Proof.
  cbn zeta. unfold analyze_image, transcribe_audio, readable, check_raises.
  rewrite BlankFacts.is_empty_strip. split; [|split].
  - intros data -> (-> & -> & ->). split; reflexivity.
  - intros exc -> [-> | [-> ->]]; split; reflexivity.
  - intros [-> | [Hno Hok]]; [split; eexists; split; reflexivity|].
    destruct (PyStrExt.blank path); [split; eexists; split; reflexivity|].
    destruct (path_exists (fs (PyStr.strip path))) as [| |exc] eqn:He;
      [| split; eexists; split; reflexivity
       | exfalso; apply (Hok exc); now left].
    destruct (path_is_file (fs (PyStr.strip path))) as [| |exc] eqn:Hf;
      [| split; eexists; split; reflexivity
       | exfalso; apply (Hok exc); right; now split].
    destruct (path_read_bytes (fs (PyStr.strip path))) as [data| |exc] eqn:Hr;
      [exfalso; now apply (Hno data)
      | split; eexists; split; reflexivity
      | split; eexists; split; reflexivity].
Qed.

Lemma local_file_operations_witness :
  (analyze_image {| client := sample_client; model_candidates := ["b"] |}
     sample_fs (fun _ => ".PNG") " notes/board.PNG "
   = Returned (generate {| client := sample_client; model_candidates := ["b"] |}
                 (MediaContents "<png>" "image/png" image_prompt))
   /\ transcribe_audio {| client := sample_client; model_candidates := ["b"] |}
        sample_fs (fun _ => ".PNG") " notes/board.PNG "
      = Returned (generate {| client := sample_client; model_candidates := ["b"] |}
                    (MediaContents "<png>" "image/png" audio_prompt)))
  /\ (analyze_image {| client := sample_client; model_candidates := ["b"] |}
        sample_fs (fun _ => ".png") "locked/board.png"
      = RaisedOSError "[Errno 13] Permission denied"
      /\ transcribe_audio {| client := sample_client; model_candidates := ["b"] |}
           sample_fs (fun _ => ".png") "locked/board.png"
         = RaisedOSError "[Errno 13] Permission denied").
Proof.
  split.
  - refine (proj1 (local_file_operations
                     {| client := sample_client; model_candidates := ["b"] |}
                     sample_fs (fun _ => ".PNG") " notes/board.PNG ")
              "<png>" eq_refl _).
    repeat split.
  - refine (proj1 (proj2 (local_file_operations
                     {| client := sample_client; model_candidates := ["b"] |}
                     sample_fs (fun _ => ".png") "locked/board.png"))
              "[Errno 13] Permission denied" eq_refl _).
    now left.
Defined.

(** ** Note files *)

Module NoteFacts.

Lemma decimal_inj (a b : nat) : decimal a = decimal b -> a = b.
Proof.
  unfold decimal. intros H.
  assert (Hu : Some (Nat.to_uint a) = Some (Nat.to_uint b)).
  { rewrite <- !NilEmpty.usu. now rewrite H. }
  injection Hu as Hu. apply (f_equal Nat.of_uint) in Hu.
  now rewrite !Unsigned.of_to in Hu.
Qed.

Lemma length_decimal_year (y : nat) :
  (1000 <= y < 10 * 1000)%nat -> String.length (decimal y) = 4.
Proof.
  intros Hy.
  assert (Hall : forallb (fun y => String.length (decimal y) =? 4)%nat
                         (seq 1000 (9 * 1000)) = true)
    by (vm_compute; reflexivity).
  rewrite forallb_forall in Hall. apply Nat.eqb_eq, Hall, in_seq. lia.
Qed.

Lemma length_pad2 (n : nat) : (n < 100)%nat -> String.length (pad2 n) = 2.
Proof.
  intros Hn.
  assert (Hall : forallb (fun n => String.length (pad2 n) =? 2)%nat
                         (seq 0 100) = true) by (vm_compute; reflexivity).
  rewrite forallb_forall in Hall. apply Nat.eqb_eq, Hall, in_seq. lia.
Qed.

Lemma pad2_inj (a b : nat) :
  (a < 100)%nat -> (b < 100)%nat -> pad2 a = pad2 b -> a = b.
Proof.
  intros Ha Hb H.
  assert (Hall :
    forallb (fun a =>
               forallb (fun b => implb (String.eqb (pad2 a) (pad2 b)) (a =? b)%nat)
                       (seq 0 100))
            (seq 0 100) = true) by (vm_compute; reflexivity).
  rewrite forallb_forall in Hall.
  assert (Hina : In a (seq 0 100)) by (apply in_seq; lia).
  specialize (Hall a Hina). rewrite forallb_forall in Hall.
  assert (Hinb : In b (seq 0 100)) by (apply in_seq; lia).
  specialize (Hall b Hinb).
  rewrite H, String.eqb_refl in Hall. now apply Nat.eqb_eq.
Qed.

Lemma append_inj (a a' b b' : string) :
  String.length a = String.length a' ->
  a ++ b = a' ++ b' -> a = a' /\ b = b'.
Proof.
  revert a'. induction a as [|c a IH]; intros [|c' a'] Hlen H;
    try discriminate.
  - now split.
  - simpl in H. injection H as -> H. simpl in Hlen.
    destruct (IH a' ltac:(lia) H) as [-> ->]. now split.
Qed.

(** Within the valid range the clock can be read back from the file name. *)
Lemma note_filename_inj (t1 t2 : datetime) :
  valid_clock t1 -> valid_clock t2 ->
  note_filename t1 = note_filename t2 -> t1 = t2.
Proof.
  destruct t1 as [y1 mo1 d1 h1 mi1 s1], t2 as [y2 mo2 d2 h2 mi2 s2].
  unfold valid_clock, note_filename. cbn [year month day hour minute second].
  intros (Hy1 & Hmo1 & Hd1 & Hh1 & Hmi1 & Hs1)
         (Hy2 & Hmo2 & Hd2 & Hh2 & Hmi2 & Hs2) H.
  apply append_inj in H as [Hy H];
    [|now rewrite !length_decimal_year].
  apply append_inj in H as [Hmo H]; [|now rewrite !length_pad2].
  apply append_inj in H as [Hd H]; [|now rewrite !length_pad2].
  apply (append_inj "_" "_") in H as [_ H]; [|reflexivity].
  apply append_inj in H as [Hh H]; [|now rewrite !length_pad2].
  apply append_inj in H as [Hmi H]; [|now rewrite !length_pad2].
  apply append_inj in H as [Hs _]; [|now rewrite !length_pad2].
  apply decimal_inj in Hy. apply pad2_inj in Hmo, Hd, Hh, Hmi, Hs; try assumption.
  now subst.
Qed.

End NoteFacts.

(** X18. Notes saved at two different clock readings get different file
    names, so the second [save_note] does not replace the first: both
    texts are in the notes directory afterwards. *)
Theorem notes_of_distinct_seconds
    (w : World) (later : datetime) (text1 text2 : string) :
  valid_clock (now w) -> valid_clock later -> later <> now w ->
  exists f1 w1 f2 w2,
    save_note text1 w = Ok (f1, w1)
    /\ save_note text2 (at_time later w1) = Ok (f2, w2)
    /\ f1 <> f2
    /\ Dict.get f1 (notes_dir w2) = Some text1
    /\ Dict.get f2 (notes_dir w2) = Some text2
    /\ progress_file w2 = progress_file w.
Proof.
  intros Hnow Hlater Hne.
  assert (Hnames : note_filename (now w) <> note_filename later).
  { intros H. apply Hne. symmetry. now apply NoteFacts.note_filename_inj. }
  eexists. eexists. eexists. eexists.
  split; [reflexivity|]. split; [reflexivity|].
  cbn [notes_dir log_event at_time now progress_file].
  repeat split.
  - exact Hnames.
  - rewrite DictFacts.get_set_other by exact Hnames.
    apply DictFacts.get_set_same.
  - apply DictFacts.get_set_same.
Qed.

Lemma notes_of_distinct_seconds_witness :
  exists f1 w1 f2 w2,
    save_note "First answer." startup_world = Ok (f1, w1)
    /\ save_note "Second answer."
         (at_time {| year := 2026; month := 3; day := 7;
                     hour := 9; minute := 5; second := 1 |} w1)
       = Ok (f2, w2)
    /\ f1 <> f2
    /\ Dict.get f1 (notes_dir w2) = Some "First answer."
    /\ Dict.get f2 (notes_dir w2) = Some "Second answer."
    /\ progress_file w2 = progress_file startup_world.
Proof.
  apply (notes_of_distinct_seconds startup_world
           {| year := 2026; month := 3; day := 7;
              hour := 9; minute := 5; second := 1 |}
           "First answer." "Second answer.").
  - unfold valid_clock. simpl. lia.
  - unfold valid_clock. simpl. lia.
  - discriminate.
Defined.
